(** * s3sync command line: resolution of raw options into a configuration

    Shallow embedding of [cli/cli.go] (package [main] of s3sync):
    [parseConn], [parseBandwith] and [GetCliArgs], together with the parts
    of the Go standard library they call ([strings], [unicode],
    [unicode/utf8], [strconv], [net/url]).

    Conventions.
    - A Go [string] is a sequence of bytes: Rocq's [string], one [ascii]
      per byte.
    - Go's [int] and [uint] are taken at 64 bits ([strconv.IntSize = 64],
      as on amd64 and arm64); values are in [Z] with the wrap-around
      written out.
    - An index result [-1] of [strings.Index] is [None]. *)

From Stdlib Require Import ZArith NArith List Bool Ascii String Lia.
Import ListNotations.
Open Scope string_scope.

(** ** Bytes *)

Definition byte_val (c : ascii) : N := N_of_ascii c.

Definition byte_in (lo hi c : ascii) : bool :=
  (byte_val lo <=? byte_val c)%N && (byte_val c <=? byte_val hi)%N.

Definition is_lower (c : ascii) : bool := byte_in "a" "z" c.
Definition is_upper (c : ascii) : bool := byte_in "A" "Z" c.
Definition is_alpha (c : ascii) : bool := is_lower c || is_upper c.
Definition is_digit09 (c : ascii) : bool := byte_in "0" "9" c.

Fixpoint str_forallb (p : ascii -> bool) (s : string) : bool :=
  match s with
  | EmptyString => true
  | String c t => p c && str_forallb p t
  end.

Fixpoint str_existsb (p : ascii -> bool) (s : string) : bool :=
  match s with
  | EmptyString => false
  | String c t => p c || str_existsb p t
  end.

(** ** Package [strings] *)

Module strings.

(** [s[:n]], for [n <= len(s)]. *)
Fixpoint take (n : nat) (s : string) : string :=
  match n, s with
  | S k, String c t => String c (take k t)
  | _, _ => EmptyString
  end.

(** [s[n:]], for [n <= len(s)]. *)
Fixpoint drop (n : nat) (s : string) : string :=
  match n, s with
  | S k, String _ t => drop k t
  | _, _ => s
  end.

Fixpoint HasPrefix (s prefix : string) {struct prefix} : bool :=
  match prefix, s with
  | EmptyString, _ => true
  | String p ps, String c cs => Ascii.eqb c p && HasPrefix cs ps
  | String _ _, EmptyString => false
  end.

Definition HasSuffix (s suffix : string) : bool :=
  (String.length suffix <=? String.length s)%nat
  && String.eqb (drop (String.length s - String.length suffix) s) suffix.

Definition TrimPrefix (s prefix : string) : string :=
  if HasPrefix s prefix then drop (String.length prefix) s else s.

(** First occurrence of [substr] in [s]. *)
Fixpoint Index (s substr : string) : option nat :=
  if HasPrefix s substr then Some 0%nat
  else match s with
       | EmptyString => None
       | String _ t => option_map S (Index t substr)
       end.

(** Last occurrence of [substr] in [s]. *)
Fixpoint LastIndex (s substr : string) : option nat :=
  match s with
  | EmptyString => if HasPrefix s substr then Some 0%nat else None
  | String _ t =>
      match LastIndex t substr with
      | Some i => Some (S i)
      | None => if HasPrefix s substr then Some 0%nat else None
      end
  end.

Definition Contains (s substr : string) : bool :=
  match Index s substr with Some _ => true | None => false end.

(** [strings.Count(s, string(c))]: the one-byte case of [Count]. *)
Fixpoint CountByte (s : string) (c : ascii) : nat :=
  match s with
  | EmptyString => 0
  | String d t => (if Ascii.eqb d c then 1 else 0) + CountByte t c
  end.

Definition Cut (s sep : string) : string * string * bool :=
  match Index s sep with
  | Some i => (take i s, drop (i + String.length sep) s, true)
  | None => (s, EmptyString, false)
  end.

Definition lower_byte (c : ascii) : ascii :=
  if is_upper c then ascii_of_N (byte_val c + 32) else c.

(** [strings.ToLower] on the bytes [A-Z]; [net/url] applies it to a
    scheme, which [getScheme] has restricted to ASCII. *)
Fixpoint ToLower (s : string) : string :=
  match s with
  | EmptyString => EmptyString
  | String c t => String (lower_byte c) (ToLower t)
  end.

End strings.

(** ** Package [net/url]

    [url.Parse] as [parseConn] observes it: the error, [Scheme], [Host] and
    [Path].  The record keeps the other fields [Parse] fills in; [RawPath]
    and [RawFragment], which only record how [Path] and [Fragment] were
    spelled, are left out.

    The functions follow the [net/url] of the Go releases of the time
    [cli.go] was written.  Later releases are stricter on a host that
    holds a square bracket: they refuse a bracketed host that is no IPv6
    address, and a [[] elsewhere in a host.  On such hosts [parseHost]
    below accepts what a later [net/url] refuses; every property below
    that states a success either excludes [[] from the host or is stated
    on the result of [url.Parse]. *)

Module url.

Inductive Error : Type :=
| ErrControlCharacter               (* invalid control character in URL *)
| ErrMissingScheme                  (* missing protocol scheme *)
| ErrFirstSegmentColon              (* first path segment in URL cannot contain colon *)
| ErrInvalidUserinfo                (* net/url: invalid userinfo *)
| ErrMissingBracket                 (* missing ']' in host *)
| ErrInvalidPort (colonPort : string)
| EscapeError (s : string)
| InvalidHostError (s : string).

Inductive Userinfo : Type :=
| User (username : string)
| UserPassword (username password : string).

Record URL : Type := mkURL {
  Scheme : string;
  Opaque : string;
  User_ : option Userinfo;
  Host : string;
  Path : string;
  OmitHost : bool;
  ForceQuery : bool;
  RawQuery : string;
  Fragment : string
}.

Inductive encoding : Type :=
| encodePath | encodePathSegment | encodeHost | encodeZone
| encodeUserPassword | encodeQueryComponent | encodeFragment.

Definition is_host_mode (m : encoding) : bool :=
  match m with encodeHost | encodeZone => true | _ => false end.

Definition byte_among (c : ascii) (l : list ascii) : bool :=
  existsb (Ascii.eqb c) l.

Definition ishex (c : ascii) : bool :=
  is_digit09 c || byte_in "a" "f" c || byte_in "A" "F" c.

Definition unhex (c : ascii) : N :=
  if is_digit09 c then (byte_val c - byte_val "0")%N
  else if byte_in "a" "f" c then (byte_val c - byte_val "a" + 10)%N
  else if byte_in "A" "F" c then (byte_val c - byte_val "A" + 10)%N
  else 0%N.

Definition unhex2 (a b : ascii) : ascii :=
  ascii_of_N (N.lor (N.shiftl (unhex a) 4) (unhex b)).

Definition shouldEscape (c : ascii) (mode : encoding) : bool :=
  if is_alpha c || is_digit09 c then false
  else if is_host_mode mode
          && byte_among c ["!"; "$"; "&"; "'"; "("; ")"; "*"; "+"; ","; ";";
                           "="; ":"; "["; "]"; "<"; ">"; "034"]%char
  then false
  else if byte_among c ["-"; "_"; "."; "~"]%char then false
  else if byte_among c ["$"; "&"; "+"; ","; "/"; ":"; ";"; "="; "?"; "@"]%char
  then match mode with
       | encodePath => Ascii.eqb c "?"
       | encodePathSegment => byte_among c ["/"; ";"; ","; "?"]%char
       | encodeUserPassword => byte_among c ["@"; "/"; "?"; ":"]%char
       | encodeQueryComponent => true
       | encodeFragment => false
       | encodeHost | encodeZone => true
       end
  else if match mode with encodeFragment => true | _ => false end
          && byte_among c ["!"; "("; ")"; "*"]%char
  then false
  else true.

(** ASCII control byte: [b < ' ' || b == 0x7f]. *)
Definition isCTL (c : ascii) : bool :=
  (byte_val c <? 32)%N || (byte_val c =? 127)%N.

Definition stringContainsCTLByte (s : string) : bool := str_existsb isCTL s.

(** First pass of [unescape]: every [%] starts a well-formed escape that
    the mode allows, and in a host no ASCII byte needs escaping. *)
Fixpoint unescape_check (mode : encoding) (s : string) : option Error :=
  match s with
  | EmptyString => None
  | String c t =>
      if Ascii.eqb c "%" then
        match t with
        | String a (String b t') =>
            if negb (ishex a && ishex b) then Some (EscapeError (strings.take 3 s))
            else if match mode with encodeHost => true | _ => false end
                    && (unhex a <? 8)%N
                    && negb (String.eqb (strings.take 3 s) "%25")
            then Some (EscapeError (strings.take 3 s))
            else if match mode with encodeZone => true | _ => false end
                    && negb (String.eqb (strings.take 3 s) "%25")
                    && negb (Ascii.eqb (unhex2 a b) " ")
                    && shouldEscape (unhex2 a b) encodeHost
            then Some (EscapeError (strings.take 3 s))
            else unescape_check mode t'
        | _ => Some (EscapeError (strings.take 3 s))
        end
      else if is_host_mode mode && (byte_val c <? 128)%N && shouldEscape c mode
      then Some (InvalidHostError (String c EmptyString))
      else unescape_check mode t
  end.

(** Second pass of [unescape], on a string that passed the first. *)
Fixpoint unescape_decode (mode : encoding) (s : string) : string :=
  match s with
  | EmptyString => EmptyString
  | String c t =>
      if Ascii.eqb c "%" then
        match t with
        | String a (String b t') => String (unhex2 a b) (unescape_decode mode t')
        | _ => EmptyString
        end
      else if Ascii.eqb c "+"
              && match mode with encodeQueryComponent => true | _ => false end
      then String " " (unescape_decode mode t)
      else String c (unescape_decode mode t)
  end.

Definition unescape (s : string) (mode : encoding) : Error + string :=
  match unescape_check mode s with
  | Some e => inl e
  | None => inr (unescape_decode mode s)
  end.

(** The loop of [getScheme]: [i] is the index of the first byte of [s]
    in [rawURL]. *)
Fixpoint getScheme_from (rawURL : string) (i : nat) (s : string)
  : Error + (string * string) :=
  match s with
  | EmptyString => inr (EmptyString, rawURL)
  | String c t =>
      if is_alpha c then getScheme_from rawURL (S i) t
      else if is_digit09 c || byte_among c ["+"; "-"; "."]%char then
        if (i =? 0)%nat then inr (EmptyString, rawURL)
        else getScheme_from rawURL (S i) t
      else if Ascii.eqb c ":" then
        if (i =? 0)%nat then inl ErrMissingScheme
        else inr (strings.take i rawURL, strings.drop (S i) rawURL)
      else inr (EmptyString, rawURL)
  end.

Definition getScheme (rawURL : string) : Error + (string * string) :=
  getScheme_from rawURL 0 rawURL.

Definition validOptionalPort (port : string) : bool :=
  match port with
  | EmptyString => true
  | String c t => Ascii.eqb c ":" && str_forallb is_digit09 t
  end.

(** [validUserinfo] ranges over runes; every rune it accepts is a single
    ASCII byte and every byte from 0x80 up decodes to a rune it rejects,
    so the test is the same byte by byte. *)
Definition validUserinfo (s : string) : bool :=
  str_forallb
    (fun c => is_alpha c || is_digit09 c
              || byte_among c ["-"; "."; "_"; ":"; "~"; "!"; "$"; "&"; "'"; "(";
                               ")"; "*"; "+"; ","; ";"; "="; "%"; "@"]%char) s.

Definition parseHost (host : string) : Error + string :=
  let plain := unescape host encodeHost in
  if strings.HasPrefix host "[" then
    match strings.LastIndex host "]" with
    | None => inl ErrMissingBracket
    | Some i =>
        let colonPort := strings.drop (S i) host in
        if negb (validOptionalPort colonPort) then inl (ErrInvalidPort colonPort)
        else
          match strings.Index (strings.take i host) "%25" with
          | Some zone =>
              match unescape (strings.take zone host) encodeHost with
              | inl e => inl e
              | inr host1 =>
                  match unescape (strings.drop zone (strings.take i host)) encodeZone with
                  | inl e => inl e
                  | inr host2 =>
                      match unescape (strings.drop i host) encodeHost with
                      | inl e => inl e
                      | inr host3 => inr (host1 ++ host2 ++ host3)
                      end
                  end
              end
          | None => plain
          end
    end
  else
    match strings.LastIndex host ":" with
    | Some i =>
        let colonPort := strings.drop i host in
        if negb (validOptionalPort colonPort) then inl (ErrInvalidPort colonPort)
        else plain
    | None => plain
    end.

Definition parseAuthority (authority : string)
  : Error + (option Userinfo * string) :=
  let at_ := strings.LastIndex authority "@" in
  let hostpart :=
    match at_ with
    | None => authority
    | Some i => strings.drop (S i) authority
    end in
  match parseHost hostpart with
  | inl e => inl e
  | inr host =>
      match at_ with
      | None => inr (None, host)
      | Some i =>
          let userinfo := strings.take i authority in
          if negb (validUserinfo userinfo) then inl ErrInvalidUserinfo
          else if negb (strings.Contains userinfo ":") then
            match unescape userinfo encodeUserPassword with
            | inl e => inl e
            | inr u => inr (Some (User u), host)
            end
          else
            let '(username, password, _) := strings.Cut userinfo ":" in
            match unescape username encodeUserPassword with
            | inl e => inl e
            | inr u =>
                match unescape password encodeUserPassword with
                | inl e => inl e
                | inr p => inr (Some (UserPassword u p), host)
                end
            end
      end
  end.

(** [parse(rawURL, false)]: the body of [Parse] once the fragment is cut
    off. *)
Definition parse (rawURL : string) : Error + URL :=
  if stringContainsCTLByte rawURL then inl ErrControlCharacter
  else if String.eqb rawURL "*" then
    inr (mkURL "" "" None "" "*" false false "" "")
  else
    match getScheme rawURL with
    | inl e => inl e
    | inr (scheme0, rest0) =>
        let scheme := strings.ToLower scheme0 in
        let '(rest1, forceQuery, rawQuery) :=
          if strings.HasSuffix rest0 "?"
             && (strings.CountByte rest0 "?" =? 1)%nat
          then (strings.take (String.length rest0 - 1) rest0, true, EmptyString)
          else let '(before, after, _) := strings.Cut rest0 "?" in
               (before, false, after) in
        if negb (strings.HasPrefix rest1 "/") && negb (String.eqb scheme "")
        then
          (* a rootless path after a scheme is opaque *)
          inr (mkURL scheme rest1 None "" "" false forceQuery rawQuery "")
        else if negb (strings.HasPrefix rest1 "/")
                && (let '(segment, _, _) := strings.Cut rest1 "/" in
                    strings.Contains segment ":")
        then inl ErrFirstSegmentColon
        else if (negb (String.eqb scheme "")
                 || negb (strings.HasPrefix rest1 "///"))
                && strings.HasPrefix rest1 "//"
        then
          let authority0 := strings.drop 2 rest1 in
          let '(authority, rest2) :=
            match strings.Index authority0 "/" with
            | Some i => (strings.take i authority0, strings.drop i authority0)
            | None => (authority0, EmptyString)
            end in
          match parseAuthority authority with
          | inl e => inl e
          | inr (user, host) =>
              match unescape rest2 encodePath with
              | inl e => inl e
              | inr path =>
                  inr (mkURL scheme "" user host path false forceQuery rawQuery "")
              end
          end
        else
          let omitHost :=
            negb (String.eqb scheme "") && strings.HasPrefix rest1 "/" in
          match unescape rest1 encodePath with
          | inl e => inl e
          | inr path =>
              inr (mkURL scheme "" None "" path omitHost forceQuery rawQuery "")
          end
    end.

Definition setFragment (u : URL) (f : string) : Error + URL :=
  match unescape f encodeFragment with
  | inl e => inl e
  | inr frag =>
      inr (mkURL (Scheme u) (Opaque u) (User_ u) (Host u) (Path u)
                 (OmitHost u) (ForceQuery u) (RawQuery u) frag)
  end.

Definition Parse (rawURL : string) : Error + URL :=
  let '(u, frag, _) := strings.Cut rawURL "#" in
  match parse u with
  | inl e => inl e
  | inr url =>
      if String.eqb frag "" then inr url else setFragment url frag
  end.

End url.

(** ** Package [storage]: the connector kinds

    [storage.Type] is declared in the repository's [storage] package; the
    command line only uses its two constants. *)

Module storage.

Inductive Type_ : Type := TypeS3 | TypeFS.

End storage.

(** ** [cli.go]: connection descriptors *)

Record connect : Type := mkConnect {
  Type_ : storage.Type_;
  Bucket : string;
  Path : string
}.

(** [parseConn]; [inl err] is the return with [err != nil] (the descriptor
    returned beside it is the zero value, which no caller reads). *)
Definition parseConn (cStr : string) : url.Error + connect :=
  match url.Parse cStr with
  | inl err => inl err
  | inr u =>
      if String.eqb (url.Scheme u) "s3" then
        inr (mkConnect storage.TypeS3 (url.Host u)
                       (strings.TrimPrefix (url.Path u) "/"))
      else if String.eqb (url.Scheme u) "fs" then
        inr (mkConnect storage.TypeFS "" (strings.TrimPrefix cStr "fs://"))
      else
        inr (mkConnect storage.TypeFS "" cStr)
  end.

(** ** Package [unicode/utf8] *)

Module utf8.
#[local] Open Scope Z_scope.

Definition rune : Type := Z.

Definition RuneError : rune := 65533.        (* U+FFFD *)

Definition bz (c : ascii) : Z := Z.of_N (byte_val c).

(** The [first] table with [acceptRanges]: for a leading byte from 0x80 up,
    the length of the sequence and the range allowed to the second byte;
    [None] for a byte that starts no sequence. *)
Definition first (b0 : Z) : option (Z * Z * Z) :=
  if b0 <? 194 then None                          (* 0x80-0xC1 *)
  else if b0 <=? 223 then Some (2, 128, 191)      (* 0xC2-0xDF *)
  else if b0 =? 224 then Some (3, 160, 191)       (* 0xE0 *)
  else if b0 =? 237 then Some (3, 128, 159)       (* 0xED *)
  else if b0 <=? 239 then Some (3, 128, 191)      (* 0xE1-0xEF *)
  else if b0 =? 240 then Some (4, 144, 191)       (* 0xF0 *)
  else if b0 <=? 243 then Some (4, 128, 191)      (* 0xF1-0xF3 *)
  else if b0 =? 244 then Some (4, 128, 143)       (* 0xF4 *)
  else None.                                      (* 0xF5-0xFF *)

(** Not a continuation byte [0x80-0xBF]. *)
Definition not_cont (b : Z) : bool := (b <? 128) || (191 <? b).

(** The runes that [for _, r := range s] visits: [DecodeRuneInString] at
    each position, an ill-formed byte giving [RuneError] and a step of one
    byte. *)
Fixpoint runes (s : string) : list rune :=
  match s with
  | EmptyString => []
  | String c0 t =>
      let b0 := bz c0 in
      if b0 <? 128 then b0 :: runes t
      else
        match first b0, t with
        | Some (sz, lo, hi), String c1 t1 =>
            let b1 := bz c1 in
            if (b1 <? lo) || (hi <? b1) then RuneError :: runes t
            else if sz <=? 2 then
              Z.lor (Z.shiftl (Z.land b0 31) 6) (Z.land b1 63) :: runes t1
            else
              match t1 with
              | String c2 t2 =>
                  let b2 := bz c2 in
                  if not_cont b2 then RuneError :: runes t
                  else if sz <=? 3 then
                    Z.lor (Z.lor (Z.shiftl (Z.land b0 15) 12)
                                 (Z.shiftl (Z.land b1 63) 6))
                          (Z.land b2 63) :: runes t2
                  else
                    match t2 with
                    | String c3 t3 =>
                        let b3 := bz c3 in
                        if not_cont b3 then RuneError :: runes t
                        else
                          Z.lor (Z.lor (Z.lor (Z.shiftl (Z.land b0 7) 18)
                                              (Z.shiftl (Z.land b1 63) 12))
                                       (Z.shiftl (Z.land b2 63) 6))
                                (Z.land b3 63) :: runes t3
                    | EmptyString => RuneError :: runes t
                    end
              | EmptyString => RuneError :: runes t
              end
        | _, _ => RuneError :: runes t
        end
  end.

Definition byte_of_Z (z : Z) : ascii := ascii_of_N (Z.to_N z).

(** [string(r)]: the UTF-8 encoding of a rune; a surrogate or a value out
    of range is encoded as [RuneError]. *)
Definition EncodeRune (r : rune) : string :=
  let enc3 (x : Z) :=
    String (byte_of_Z (Z.lor 224 (Z.shiftr x 12)))
      (String (byte_of_Z (Z.lor 128 (Z.land (Z.shiftr x 6) 63)))
         (String (byte_of_Z (Z.lor 128 (Z.land x 63))) EmptyString)) in
  if (r <? 0) || (1114111 <? r) || ((55296 <=? r) && (r <=? 57343))
  then enc3 RuneError
  else if r <=? 127 then String (byte_of_Z r) EmptyString
  else if r <=? 2047 then
    String (byte_of_Z (Z.lor 192 (Z.shiftr r 6)))
      (String (byte_of_Z (Z.lor 128 (Z.land r 63))) EmptyString)
  else if r <=? 65535 then enc3 r
  else
    String (byte_of_Z (Z.lor 240 (Z.shiftr r 18)))
      (String (byte_of_Z (Z.lor 128 (Z.land (Z.shiftr r 12) 63)))
         (String (byte_of_Z (Z.lor 128 (Z.land (Z.shiftr r 6) 63)))
            (String (byte_of_Z (Z.lor 128 (Z.land r 63))) EmptyString))).

End utf8.

(** ** Package [unicode] *)

Module unicode.
#[local] Open Scope Z_scope.

Definition MaxLatin1 : Z := 255.

(** [unicode.IsSpace]: the Latin-1 cases, then the [White_Space] table. *)
Definition IsSpace (r : utf8.rune) : bool :=
  if (0 <=? r) && (r <=? MaxLatin1) then
    (9 <=? r) && (r <=? 13) || (r =? 32) || (r =? 133) || (r =? 160)
  else
    (r =? 5760)                              (* U+1680 *)
    || (8192 <=? r) && (r <=? 8202)          (* U+2000-U+200A *)
    || (r =? 8232) || (r =? 8233)            (* U+2028, U+2029 *)
    || (r =? 8239) || (r =? 8287)            (* U+202F, U+205F *)
    || (r =? 12288).                         (* U+3000 *)

(** [unicode.IsDigit]: [0-9] in Latin-1, above it membership in the table
    of decimal digits ([unicode.Digit], category Nd), which is [Nd]. *)
Definition IsDigit (Nd : utf8.rune -> bool) (r : utf8.rune) : bool :=
  if (0 <=? r) && (r <=? MaxLatin1) then (48 <=? r) && (r <=? 57)
  else Nd r.

End unicode.

(** ** Package [strconv] *)

Module strconv.
#[local] Open Scope Z_scope.

Definition IntSize : Z := 64.

Inductive NumError : Type := ErrSyntax | ErrRange.

Definition maxUint64 : Z := 2 ^ 64 - 1.

(** Value of a digit byte in [ParseUint]: [0-9], then letters of either
    case through [lower(c) = c | ('x' - 'X')]. *)
Definition digit_val (c : ascii) : option Z :=
  let b := utf8.bz c in
  let l := Z.lor b 32 in
  if (48 <=? b) && (b <=? 57) then Some (b - 48)
  else if (97 <=? l) && (l <=? 122) then Some (l - 97 + 10)
  else None.

Fixpoint ParseUint_loop (base cutoff maxVal n : Z) (s : string)
  : NumError + Z :=
  match s with
  | EmptyString => inr n
  | String c t =>
      match digit_val c with
      | None => inl ErrSyntax
      | Some d =>
          if base <=? d then inl ErrSyntax
          else if cutoff <=? n then inl ErrRange      (* n*base overflows *)
          else
            let n' := n * base in
            let n1 := (n' + d) mod 2 ^ 64 in
            if (n1 <? n') || (maxVal <? n1) then inl ErrRange
            else ParseUint_loop base cutoff maxVal n1 t
      end
  end.

(** [ParseUint(s, base, bitSize)] for an explicit base, [2 <= base <= 36]
    (no prefix or underscore handling, which Go does for base 0 only). *)
Definition ParseUint (s : string) (base bitSize : Z) : NumError + Z :=
  if String.eqb s "" then inl ErrSyntax
  else
    let bitSize := if bitSize =? 0 then IntSize else bitSize in
    let cutoff := maxUint64 / base + 1 in
    let maxVal := 2 ^ bitSize - 1 in
    ParseUint_loop base cutoff maxVal 0 s.

Definition ParseInt (s : string) (base bitSize : Z) : NumError + Z :=
  match s with
  | EmptyString => inl ErrSyntax
  | String c t =>
      let neg := Ascii.eqb c "-" in
      let s1 := if Ascii.eqb c "+" || neg then t else s in
      match ParseUint s1 base bitSize with
      | inl e => inl e
      | inr un =>
          let bitSize := if bitSize =? 0 then IntSize else bitSize in
          let cutoff := 2 ^ (bitSize - 1) in
          if negb neg && (cutoff <=? un) then inl ErrRange
          else if neg && (cutoff <? un) then inl ErrRange
          else inr (if neg then - un else un)
      end
  end.

(** The fast path of [Atoi]: [ch -= '0'] on a byte, then [ch > 9]. *)
Fixpoint Atoi_fast (n : Z) (s : string) : NumError + Z :=
  match s with
  | EmptyString => inr n
  | String c t =>
      let ch := (utf8.bz c - 48) mod 256 in
      if 9 <? ch then inl ErrSyntax else Atoi_fast (n * 10 + ch) t
  end.

Definition Atoi (s : string) : NumError + Z :=
  let sLen := Z.of_nat (String.length s) in
  if (0 <? sLen) && (sLen <? 19) then
    match s with
    | EmptyString => inl ErrSyntax
    | String c t =>
        let signed := Ascii.eqb c "-" || Ascii.eqb c "+" in
        let s1 := if signed then t else s in
        if signed && (Z.of_nat (String.length s1) <? 1) then inl ErrSyntax
        else
          match Atoi_fast 0 s1 with
          | inl e => inl e
          | inr n => inr (if Ascii.eqb c "-" then - n else n)
          end
    end
  else ParseInt s 10 0.

End strconv.

(** ** [cli.go]: the bandwidth parser *)

(** Go's [int] arithmetic: the result of an operation, reduced to 64 bits
    two's complement. *)
Definition wrap_int (z : Z) : Z :=
  ((z + 2 ^ 63) mod 2 ^ 64 - 2 ^ 63)%Z.

(** [strings.TrimSpace] removes the white-space runes at both ends of the
    string; the loop then ranges over what is left, so over these runes. *)
Fixpoint trim_left (rs : list utf8.rune) : list utf8.rune :=
  match rs with
  | r :: rs' => if unicode.IsSpace r then trim_left rs' else rs
  | [] => []
  end.

Definition trim_space (rs : list utf8.rune) : list utf8.rune :=
  rev (trim_left (rev (trim_left rs))).

Definition rune_among (r : utf8.rune) (cs : list ascii) : bool :=
  existsb (fun c => Z.eqb r (utf8.bz c)) cs.

Section Bandwidth.

(** The table [unicode.Digit] above Latin-1. *)
Variable Nd : utf8.rune -> bool.

(** The loop of [parseBandwith]: [None] is its [return 0, false]. *)
Fixpoint parseBandwith_loop (rs : list utf8.rune) (digits : string)
    (multiplier : Z) : option (string * Z) :=
  match rs with
  | [] => Some (digits, multiplier)
  | r :: rs' =>
      if unicode.IsDigit Nd r then
        parseBandwith_loop rs' (digits ++ utf8.EncodeRune r) multiplier
      else if unicode.IsSpace r then parseBandwith_loop rs' digits multiplier
      else if rune_among r ["k"; "K"]%char then
        parseBandwith_loop rs' digits 1024%Z
      else if rune_among r ["m"; "M"]%char then
        parseBandwith_loop rs' digits (1024 * 1024)%Z
      else if rune_among r ["g"; "G"]%char then
        parseBandwith_loop rs' digits (1024 * 1024 * 1024)%Z
      else None
  end.

Definition parseBandwith (s : string) : Z * bool :=
  if String.eqb s "" then (0%Z, true)
  else
    match parseBandwith_loop (trim_space (utf8.runes s)) "" 1%Z with
    | None => (0%Z, false)
    | Some (digits, multiplier) =>
        match strconv.Atoi digits with
        | inl _ => (0%Z, false)
        | inr rate => (wrap_int (rate * multiplier), true)
        end
    end.

End Bandwidth.

(** ** [cli.go]: raw and parsed arguments *)

Inductive onFailAction : Type := onFailFatal | onFailSkip | onFailSkipMissing.

(** [type args struct]: the raw options, as [arg.MustParse] leaves them
    (the defaults of [GetCliArgs] overridden by the command line).  [uint],
    [int64] and [int] fields are in [Z]. *)
Module raw.

Record args : Type := mkArgs {
  (* Source config *)
  Source : string;
  SourceKey : string;
  SourceSecret : string;
  SourceRegion : string;
  SourceEndpoint : string;
  (* Target config *)
  Target : string;
  TargetKey : string;
  TargetSecret : string;
  TargetRegion : string;
  TargetEndpoint : string;
  (* S3 config *)
  S3Retry : Z;
  S3RetryInterval : Z;
  S3Acl : string;
  S3StorageClass : string;
  S3KeysPerReq : Z;
  (* FS config *)
  FSFilePerm : string;
  FSDirPerm : string;
  FSDisableXattr : bool;
  (* Filters *)
  FilterExt : list string;
  FilterExtNot : list string;
  FilterCT : list string;
  FilterCTNot : list string;
  FilterMtimeAfter : Z;
  FilterMtimeBefore : Z;
  FilterModified : bool;
  (* Misc *)
  Workers : Z;
  Debug : bool;
  SyncLog : bool;
  ShowProgress : bool;
  OnFail : string;
  DisableHTTP2 : bool;
  ListBuffer : Z;
  (* Rate Limit *)
  RateLimitObjPerSec : Z;
  RateLimitBandwidth : string
}.

End raw.

(** [type argsParsed struct]: the raw options embedded, and the fields
    derived from them (which in Go shadow the embedded fields of the same
    name). *)
Record argsParsed : Type := mkArgsParsed {
  args : raw.args;
  Source : connect;
  Target : connect;
  S3RetryInterval : Z;          (* time.Duration: int64 nanoseconds *)
  OnFail : onFailAction;
  FSFilePerm : Z;               (* os.FileMode: uint32 *)
  FSDirPerm : Z;
  RateLimitBandwidth : Z
}.

(** ** The process around [GetCliArgs] *)

(** What [GetCliArgs] reads and writes outside its arguments: whether
    standard output is a terminal, and the variable [GODEBUG] (empty when
    unset, as [os.Getenv] reports it). *)
Record Env : Type := mkEnv {
  stdoutIsTerminal : bool;
  GODEBUG : string
}.

(** How a run ends: [Ok] is the final [return] with a nil error, [Err] the
    [return cli, err] after a failed [parseConn], and [Fail] a call of
    [p.Fail], which prints the usage with the message and exits the
    process with status -1. *)
Inductive outcome (A : Type) : Type :=
| Ok (a : A)
| Err (e : url.Error)
| Fail (msg : string).

Arguments Ok {A} a.
Arguments Err {A} e.
Arguments Fail {A} msg.

Definition M (A : Type) : Type := Env -> outcome A * Env.

Definition ret {A} (a : A) : M A := fun env => (Ok a, env).

Definition bind {A B} (m : M A) (k : A -> M B) : M B :=
  fun env =>
    match m env with
    | (Ok a, env') => k a env'
    | (Err e, env') => (Err e, env')
    | (Fail msg, env') => (Fail msg, env')
    end.

Notation "x <- m ;; k" := (bind m (fun x => k))
  (at level 61, m at next level, right associativity).
Notation "m ;;; k" := (bind m (fun _ => k))
  (at level 61, right associativity).

Definition p_Fail {A} (msg : string) : M A := fun env => (Fail msg, env).

Definition return_err {A} (e : url.Error) : M A := fun env => (Err e, env).

Definition isatty_stdout : M bool := fun env => (Ok (stdoutIsTerminal env), env).

Definition os_Getenv_GODEBUG : M string := fun env => (Ok (GODEBUG env), env).

Definition os_Setenv_GODEBUG (v : string) : M unit :=
  fun env => (Ok tt, mkEnv (stdoutIsTerminal env) v).

(** [if c { m }] *)
Definition when (c : bool) (m : M unit) : M unit := if c then m else ret tt.

(** ** [GetCliArgs] *)

Definition time_Second : Z := 1000000000.

Definition S3Acl_values : list string :=
  [""; "private"; "public-read"; "public-read-write"; "aws-exec-read";
   "authenticated-read"; "bucket-owner-read"; "bucket-owner-full-control"].

(** A message with its list of values between double quotes. *)
Definition quoted (before values : string) : string :=
  before ++ String "034" (values ++ String "034" EmptyString).

Definition msg_acl : string :=
  quoted "--acl must be one of "
    "private, public-read, public-read-write, aws-exec-read, authenticated-read, bucket-owner-read, bucket-owner-full-control".

Definition msg_on_fail : string :=
  quoted "--on-fail must be one of " "fatal, skip, skipmissing".

Definition msg_bandwidth : string :=
  "Invalid value of (--ratelimit-bandwidth) arg".

Definition msg_tty : string := "Progress (--sync-progress) require tty".

Definition msg_file_perm : string := "Failed to parse arg --fs-file-perm".

Definition msg_dir_perm : string := "Failed to parse arg --fs-dir-perm".

Definition msg_xattr : string :=
  "Filter modified files (--filter-modified) required xattr".

(** [switch cli.args.S3Acl]: every listed case breaks, the default fails. *)
Definition check_S3Acl (acl : string) : M unit :=
  if existsb (String.eqb acl) S3Acl_values then ret tt else p_Fail msg_acl.

(** [switch cli.args.OnFail] *)
Definition switch_OnFail (s : string) : M onFailAction :=
  if String.eqb s "fatal" then ret onFailFatal
  else if String.eqb s "skip" then ret onFailSkip
  else if String.eqb s "skipmissing" then ret onFailSkipMissing
  else p_Fail msg_on_fail.

Definition lift_parseConn (cStr : string) : M connect :=
  match parseConn cStr with
  | inl err => return_err err
  | inr conn => ret conn
  end.

(** [strconv.ParseUint(perm, 8, 32)], then [os.FileMode(...)], a
    conversion to [uint32]. *)
Definition parse_perm (perm msg : string) : M Z :=
  match strconv.ParseUint perm 8 32 with
  | inl _ => p_Fail msg
  | inr v => ret (v mod 2 ^ 32)%Z
  end.

Section GetCliArgs.

Variable Nd : utf8.rune -> bool.

(** [GetCliArgs] from [cli.args = rawCli] on. *)
Definition GetCliArgs (rawCli : raw.args) : M argsParsed :=
  check_S3Acl (raw.S3Acl rawCli) ;;;
  onFail <- switch_OnFail (raw.OnFail rawCli) ;;
  rate <- (let '(rate, ok) := parseBandwith Nd (raw.RateLimitBandwidth rawCli) in
           if ok then ret rate else p_Fail msg_bandwidth) ;;
  let retryInterval :=
    wrap_int (wrap_int (raw.S3RetryInterval rawCli) * time_Second) in
  source <- lift_parseConn (raw.Source rawCli) ;;
  target <- lift_parseConn (raw.Target rawCli) ;;
  tty <- isatty_stdout ;;
  when (raw.ShowProgress rawCli && negb tty) (p_Fail msg_tty) ;;;
  filePerm <- parse_perm (raw.FSFilePerm rawCli) msg_file_perm ;;
  dirPerm <- parse_perm (raw.FSDirPerm rawCli) msg_dir_perm ;;
  when (raw.DisableHTTP2 rawCli)
       (g <- os_Getenv_GODEBUG ;; os_Setenv_GODEBUG (g ++ "http2client=0")) ;;;
  when (raw.FilterModified rawCli && raw.FSDisableXattr rawCli)
       (p_Fail msg_xattr) ;;;
  ret (mkArgsParsed rawCli source target retryInterval onFail
                    filePerm dirPerm rate).

End GetCliArgs.

(** The defaults [GetCliArgs] sets before parsing the command line, with
    the two positional arguments. *)
Definition default_args (source target : string) : raw.args :=
  raw.mkArgs source "" "" "us-east-1" ""
             target "" "" "us-east-1" ""
             0 0 "private" "" 1000
             "0644" "0755" false
             [] [] [] [] 0 0 false
             16 false false false "fatal" false 1000
             0 "".

(** An excerpt of the table [unicode.Digit] above Latin-1 (Arabic-Indic,
    Devanagari and fullwidth digits), to run the parsers on. *)
Definition Nd_excerpt (r : utf8.rune) : bool :=
  ((1632 <=? r) && (r <=? 1641)          (* U+0660-U+0669 *)
   || (2406 <=? r) && (r <=? 2415)       (* U+0966-U+096F *)
   || (65296 <=? r) && (r <=? 65305))%Z. (* U+FF10-U+FF19 *)

(** The defaults with the on-failure action, the flag [--fs-disable-xattr],
    the flag [--filter-modified] and the flag [--disable-http2] as given. *)
Definition sample_args (onFail : string)
    (disableXattr filterModified disableHTTP2 : bool) : raw.args :=
  raw.mkArgs "s3://bucket/path" "" "" "us-east-1" ""
             "/data/dir" "" "" "us-east-1" ""
             0 0 "private" "" 1000
             "0644" "0755" disableXattr
             [] [] [] [] 0 0 filterModified
             16 false false false onFail disableHTTP2 1000
             0 "".

(** The same options without [--filter-modified]. *)
Definition clear_FilterModified (a : raw.args) : raw.args :=
  raw.mkArgs (raw.Source a) (raw.SourceKey a) (raw.SourceSecret a)
             (raw.SourceRegion a) (raw.SourceEndpoint a)
             (raw.Target a) (raw.TargetKey a) (raw.TargetSecret a)
             (raw.TargetRegion a) (raw.TargetEndpoint a)
             (raw.S3Retry a) (raw.S3RetryInterval a) (raw.S3Acl a)
             (raw.S3StorageClass a) (raw.S3KeysPerReq a)
             (raw.FSFilePerm a) (raw.FSDirPerm a) (raw.FSDisableXattr a)
             (raw.FilterExt a) (raw.FilterExtNot a) (raw.FilterCT a)
             (raw.FilterCTNot a) (raw.FilterMtimeAfter a)
             (raw.FilterMtimeBefore a) false
             (raw.Workers a) (raw.Debug a) (raw.SyncLog a)
             (raw.ShowProgress a) (raw.OnFail a) (raw.DisableHTTP2 a)
             (raw.ListBuffer a) (raw.RateLimitObjPerSec a)
             (raw.RateLimitBandwidth a).

(** A run seen from outside: how it ended, without the value. *)
Definition ending {A} (o : outcome A) : outcome unit :=
  match o with
  | Ok _ => Ok tt
  | Err e => Err e
  | Fail msg => Fail msg
  end.

(** ** Rate strings *)

(** The number a string of ASCII digits denotes, read after [n]. *)
Fixpoint decimal_from (n : Z) (ds : string) : Z :=
  match ds with
  | EmptyString => n
  | String c t => decimal_from (n * 10 + (utf8.bz c - 48)) t
  end.

Definition decimal (ds : string) : Z := decimal_from 0 ds.

(** The multiplier of a unit letter. *)
Definition unit_multiplier (c : ascii) : option Z :=
  if url.byte_among c ["k"; "K"]%char then Some 1024%Z
  else if url.byte_among c ["m"; "M"]%char then Some (1024 * 1024)%Z
  else if url.byte_among c ["g"; "G"]%char then Some (1024 * 1024 * 1024)%Z
  else None.

Fixpoint str_bytes (s : string) : list ascii :=
  match s with
  | EmptyString => []
  | String c t => c :: str_bytes t
  end.

(** ** Classes of endpoint strings *)

(** The byte [c] does not occur in [s]. *)
Definition no_byte (c : ascii) (s : string) : bool :=
  str_forallb (fun d => negb (Ascii.eqb d c)) s.

(** A byte of a bucket name that [url.Parse] reads as itself in a host:
    no control byte, none of the delimiters of a URI, and no ASCII byte
    that a host would need escaped. *)
Definition bucket_byte (c : ascii) : bool :=
  negb (url.isCTL c)
  && negb (url.byte_among c ["#"; "?"; "/"; "@"; ":"; "%"; "["]%char)
  && negb ((byte_val c <? 128)%N && url.shouldEscape c url.encodeHost).

(** A byte of a path that [url.Parse] reads as itself: no control byte,
    and none of [#], [?] and [%]. *)
Definition path_byte (c : ascii) : bool :=
  negb (url.isCTL c) && negb (url.byte_among c ["#"; "?"; "%"]%char).

Definition bare_byte (c : ascii) : bool :=
  path_byte c && negb (Ascii.eqb c ":").

(** A bare path: bytes that are read as themselves, no colon, and no
    leading [//] (which would start an authority). *)
Definition bare_path (s : string) : bool :=
  str_forallb bare_byte s && negb (strings.HasPrefix s "//").

(** ** Definitions for the further properties *)

(** The number that a string of digits denotes in a base up to ten, read
    after [n]. *)
Fixpoint digits_value (base n : Z) (s : string) : Z :=
  match s with
  | EmptyString => n
  | String c t => digits_value base (n * base + (utf8.bz c - 48)) t
  end.

Definition octal (s : string) : Z := digits_value 8 0 s.

Definition is_octal (c : ascii) : bool := byte_in "0" "7" c.

Definition nonspace (r : utf8.rune) : bool := negb (unicode.IsSpace r).

(** The multiplier a unit rune stands for. *)
Definition rune_multiplier (r : utf8.rune) : option Z :=
  if rune_among r ["k"; "K"]%char then Some 1024%Z
  else if rune_among r ["m"; "M"]%char then Some (1024 * 1024)%Z
  else if rune_among r ["g"; "G"]%char then Some (1024 * 1024 * 1024)%Z
  else None.

(** A rune that ends the loop of [parseBandwith] with a failure. *)
Definition refused (Nd : utf8.rune -> bool) (r : utf8.rune) : bool :=
  negb (unicode.IsDigit Nd r) && negb (unicode.IsSpace r)
  && match rune_multiplier r with Some _ => false | None => true end.

(** The digits of a rune sequence, as [parseBandwith] collects them. *)
Fixpoint digits_of (Nd : utf8.rune -> bool) (rs : list utf8.rune) : string :=
  match rs with
  | [] => EmptyString
  | r :: rs' =>
      if unicode.IsDigit Nd r then utf8.EncodeRune r ++ digits_of Nd rs'
      else digits_of Nd rs'
  end.

(** The multiplier after a rune sequence: that of its last unit rune. *)
Fixpoint last_multiplier (Nd : utf8.rune -> bool) (rs : list utf8.rune)
    (m : Z) : Z :=
  match rs with
  | [] => m
  | r :: rs' =>
      if unicode.IsDigit Nd r || unicode.IsSpace r
      then last_multiplier Nd rs' m
      else match rune_multiplier r with
           | Some k => last_multiplier Nd rs' k
           | None => last_multiplier Nd rs' m
           end
  end.

(** What [parseBandwith] makes of the digits and the multiplier. *)
Definition rate_of (digits : string) (multiplier : Z) : Z * bool :=
  match strconv.Atoi digits with
  | inl _ => (0%Z, false)
  | inr rate => (wrap_int (rate * multiplier), true)
  end.

Definition high_byte (c : ascii) : bool := (128 <=? byte_val c)%N.

Definition acl_ok (rawCli : raw.args) : bool :=
  existsb (String.eqb (raw.S3Acl rawCli)) S3Acl_values.

Definition on_fail_ok (rawCli : raw.args) : bool :=
  existsb (String.eqb (raw.OnFail rawCli)) ["fatal"; "skip"; "skipmissing"].

Definition rate_ok (Nd : utf8.rune -> bool) (rawCli : raw.args) : bool :=
  snd (parseBandwith Nd (raw.RateLimitBandwidth rawCli)).

(** The environment after [os.Setenv("GODEBUG", ...)]. *)
Definition http2_disabled (env : Env) : Env :=
  mkEnv (stdoutIsTerminal env) (GODEBUG env ++ "http2client=0").

(** A permission string that [strconv.ParseUint(s, 8, 32)] accepts. *)
Definition perm_ok (s : string) : bool :=
  negb (String.eqb s "") && str_forallb is_octal s && (octal s <? 2 ^ 32)%Z.

(** The action an on-failure string of the list stands for. *)
Definition on_fail_action (s : string) : onFailAction :=
  if String.eqb s "skip" then onFailSkip
  else if String.eqb s "skipmissing" then onFailSkipMissing
  else onFailFatal.

(** The run of [GetCliArgs] as a list of decisions, in the order of the
    checks. *)
Definition decisions (Nd : utf8.rune -> bool) (rawCli : raw.args)
    (env : Env) : outcome argsParsed * Env :=
  if negb (acl_ok rawCli) then (Fail msg_acl, env)
  else if negb (on_fail_ok rawCli) then (Fail msg_on_fail, env)
  else if negb (rate_ok Nd rawCli) then (Fail msg_bandwidth, env)
  else
    match parseConn (raw.Source rawCli) with
    | inl err => (Err err, env)
    | inr source =>
        match parseConn (raw.Target rawCli) with
        | inl err => (Err err, env)
        | inr target =>
            if raw.ShowProgress rawCli && negb (stdoutIsTerminal env)
            then (Fail msg_tty, env)
            else if negb (perm_ok (raw.FSFilePerm rawCli))
            then (Fail msg_file_perm, env)
            else if negb (perm_ok (raw.FSDirPerm rawCli))
            then (Fail msg_dir_perm, env)
            else
              let env1 :=
                if raw.DisableHTTP2 rawCli then http2_disabled env else env in
              if raw.FilterModified rawCli && raw.FSDisableXattr rawCli
              then (Fail msg_xattr, env1)
              else
                (Ok (mkArgsParsed rawCli source target
                       (wrap_int (wrap_int (raw.S3RetryInterval rawCli)
                                  * time_Second))
                       (on_fail_action (raw.OnFail rawCli))
                       (octal (raw.FSFilePerm rawCli))
                       (octal (raw.FSDirPerm rawCli))
                       (fst (parseBandwith Nd
                               (raw.RateLimitBandwidth rawCli)))),
                 env1)
        end
    end.

(** A byte of a path before any query or fragment: no control byte, no
    [#] and no [?]; a percent sign may occur. *)
Definition key_byte (c : ascii) : bool :=
  negb (url.isCTL c) && negb (url.byte_among c ["#"; "?"]%char).

(** The defaults with the options that the checks read as given. *)
Definition sample_options (source target acl onFail bandwidth
    filePerm dirPerm : string) (retrySleep : Z) (progress : bool)
    : raw.args :=
  raw.mkArgs source "" "" "us-east-1" ""
             target "" "" "us-east-1" ""
             0 retrySleep acl "" 1000
             filePerm dirPerm false
             [] [] [] [] 0 0 false
             16 false false progress onFail false 1000
             0 bandwidth.

(** * Properties *)

(** ** Strings *)

Lemma str_forallb_impl (p q : ascii -> bool) (s : string) :
  (forall c, p c = true -> q c = true) ->
  str_forallb p s = true -> str_forallb q s = true.
Proof.
  intros Hpq. induction s as [|c t IH]; simpl; [reflexivity|].
  intros H. apply andb_true_iff in H as [Hc Ht].
  rewrite (Hpq c Hc). auto.
Qed.

Lemma str_forallb_app (p : ascii -> bool) (a b : string) :
  str_forallb p (a ++ b) = str_forallb p a && str_forallb p b.
Proof.
  induction a as [|c t IH]; simpl; [reflexivity|].
  rewrite IH. apply andb_assoc.
Qed.

Lemma str_existsb_forallb (p : ascii -> bool) (s : string) :
  str_forallb (fun c => negb (p c)) s = true -> str_existsb p s = false.
Proof.
  induction s as [|c t IH]; simpl; [reflexivity|].
  intros H. apply andb_true_iff in H as [Hc Ht].
  apply negb_true_iff in Hc. rewrite Hc. auto.
Qed.

Lemma Index_no_byte (c : ascii) (s : string) :
  no_byte c s = true -> strings.Index s (String c "") = None.
Proof.
  unfold no_byte. induction s as [|d t IH]; simpl; [reflexivity|].
  intros H. apply andb_true_iff in H as [Hd Ht].
  apply negb_true_iff in Hd. rewrite Hd. simpl.
  rewrite (IH Ht). reflexivity.
Qed.

Lemma LastIndex_no_byte (c : ascii) (s : string) :
  no_byte c s = true -> strings.LastIndex s (String c "") = None.
Proof.
  unfold no_byte. induction s as [|d t IH]; simpl; [reflexivity|].
  intros H. apply andb_true_iff in H as [Hd Ht].
  apply negb_true_iff in Hd. rewrite (IH Ht), Hd. reflexivity.
Qed.

Lemma CountByte_no_byte (c : ascii) (s : string) :
  no_byte c s = true -> strings.CountByte s c = 0.
Proof.
  unfold no_byte. induction s as [|d t IH]; simpl; [reflexivity|].
  intros H. apply andb_true_iff in H as [Hd Ht].
  apply negb_true_iff in Hd. rewrite Hd, (IH Ht). reflexivity.
Qed.

Lemma Cut_no_byte (c : ascii) (s : string) :
  no_byte c s = true -> strings.Cut s (String c "") = (s, "", false).
Proof.
  intros H. unfold strings.Cut. rewrite (Index_no_byte c s H). reflexivity.
Qed.

Lemma Index_app_byte (c : ascii) (a b : string) :
  no_byte c a = true ->
  strings.Index (a ++ String c b) (String c "") = Some (String.length a).
Proof.
  unfold no_byte. induction a as [|d t IH]; simpl.
  - intros _. rewrite Ascii.eqb_refl. reflexivity.
  - intros H. apply andb_true_iff in H as [Hd Ht].
    apply negb_true_iff in Hd. rewrite Hd. simpl.
    rewrite (IH Ht). reflexivity.
Qed.

Lemma take_app (a b : string) : strings.take (String.length a) (a ++ b) = a.
Proof.
  induction a as [|c t IH]; simpl; [destruct b; reflexivity|].
  rewrite IH. reflexivity.
Qed.

Lemma drop_app (a b : string) : strings.drop (String.length a) (a ++ b) = b.
Proof.
  induction a as [|c t IH]; simpl; [reflexivity | exact IH].
Qed.

(** ** [net/url] on strings that need no escaping *)

Lemma unescape_decode_no_percent (mode : url.encoding) (s : string) :
  mode <> url.encodeQueryComponent ->
  no_byte "%" s = true -> url.unescape_decode mode s = s.
Proof.
  intros Hm. unfold no_byte. induction s as [|c t IH]; simpl; [reflexivity|].
  intros H. apply andb_true_iff in H as [Hd Ht].
  apply negb_true_iff in Hd. rewrite Hd, (IH Ht).
  destruct mode; try contradiction; rewrite ?andb_false_r; reflexivity.
Qed.

Lemma unescape_no_percent (mode : url.encoding) (s : string) :
  url.is_host_mode mode = false ->
  mode <> url.encodeQueryComponent ->
  no_byte "%" s = true -> url.unescape s mode = inr s.
Proof.
  intros Hh Hm H. unfold url.unescape.
  assert (Hc : url.unescape_check mode s = None).
  { revert H. unfold no_byte. induction s as [|c t IH]; simpl; [reflexivity|].
    intros H. apply andb_true_iff in H as [Hc Ht].
    apply negb_true_iff in Hc. rewrite Hc, Hh. auto. }
  rewrite Hc, (unescape_decode_no_percent mode s Hm H). reflexivity.
Qed.

Lemma bucket_byte_facts (c : ascii) :
  bucket_byte c = true ->
  url.isCTL c = false
  /\ Ascii.eqb c "#" = false /\ Ascii.eqb c "?" = false
  /\ Ascii.eqb c "/" = false /\ Ascii.eqb c "@" = false
  /\ Ascii.eqb c ":" = false /\ Ascii.eqb c "%" = false
  /\ Ascii.eqb c "[" = false
  /\ (byte_val c <? 128)%N && url.shouldEscape c url.encodeHost = false.
Proof.
  unfold bucket_byte, url.byte_among. simpl existsb.
  intros H. apply andb_true_iff in H as [H H3].
  apply andb_true_iff in H as [H1 H2].
  apply negb_true_iff in H1, H2, H3.
  repeat (apply orb_false_iff in H2 as [? H2]).
  repeat split; assumption.
Qed.

Lemma path_byte_facts (c : ascii) :
  path_byte c = true ->
  url.isCTL c = false
  /\ Ascii.eqb c "#" = false /\ Ascii.eqb c "?" = false
  /\ Ascii.eqb c "%" = false.
Proof.
  unfold path_byte, url.byte_among. simpl existsb.
  intros H. apply andb_true_iff in H as [H1 H2].
  apply negb_true_iff in H1, H2.
  repeat (apply orb_false_iff in H2 as [? H2]).
  repeat split; assumption.
Qed.

Lemma unescape_host_plain (s : string) :
  str_forallb bucket_byte s = true -> url.unescape s url.encodeHost = inr s.
Proof.
  intros H. unfold url.unescape.
  assert (Hc : url.unescape_check url.encodeHost s = None).
  { revert H. induction s as [|c t IH]; simpl; [reflexivity|].
    intros H. apply andb_true_iff in H as [Hc Ht].
    apply bucket_byte_facts in Hc as (_ & _ & _ & _ & _ & _ & Hp & _ & He).
    rewrite Hp, He. auto. }
  rewrite Hc, unescape_decode_no_percent; [reflexivity | discriminate |].
  clear Hc. revert H. apply str_forallb_impl. intros c Hc.
  apply bucket_byte_facts in Hc as (_ & _ & _ & _ & _ & _ & Hp & _).
  rewrite Hp. reflexivity.
Qed.

Ltac class_to_no_byte :=
  unfold no_byte;
  match goal with
  | H : str_forallb bucket_byte ?s = true |- str_forallb _ ?s = true =>
      revert H; apply str_forallb_impl;
      let c := fresh "c" in let Hc := fresh "Hc" in
      intros c Hc;
      apply bucket_byte_facts in Hc as (? & ? & ? & ? & ? & ? & ? & ? & ?);
      apply negb_true_iff; assumption
  | H : str_forallb path_byte ?s = true |- str_forallb _ ?s = true =>
      revert H; apply str_forallb_impl;
      let c := fresh "c" in let Hc := fresh "Hc" in
      intros c Hc;
      apply path_byte_facts in Hc as (? & ? & ? & ?);
      apply negb_true_iff; assumption
  end.

Lemma parseHost_plain (s : string) :
  str_forallb bucket_byte s = true -> url.parseHost s = inr s.
Proof.
  intros H. unfold url.parseHost.
  assert (Hb : strings.HasPrefix s "[" = false).
  { destruct s as [|c t]; simpl; [reflexivity|].
    simpl in H. apply andb_true_iff in H as [Hc _].
    apply bucket_byte_facts in Hc as (_ & _ & _ & _ & _ & _ & _ & Hb & _).
    rewrite Hb. reflexivity. }
  rewrite Hb, (LastIndex_no_byte ":" s) by class_to_no_byte.
  apply unescape_host_plain, H.
Qed.

Lemma parseAuthority_plain (s : string) :
  str_forallb bucket_byte s = true -> url.parseAuthority s = inr (None, s).
Proof.
  intros H. unfold url.parseAuthority.
  rewrite (LastIndex_no_byte "@" s) by class_to_no_byte.
  rewrite (parseHost_plain s H). reflexivity.
Qed.

(** ** Connection descriptors *)

Lemma Parse_s3 (bucket path : string) :
  str_forallb bucket_byte bucket = true ->
  str_forallb path_byte path = true ->
  url.Parse ("s3://" ++ bucket ++ "/" ++ path)
  = inr (url.mkURL "s3" "" None bucket ("/" ++ path) false false "" "").
Proof.
  intros Hb Hp.
  pose (r := bucket ++ String "/" path).
  change (url.Parse ("s3://" ++ r) = inr (url.mkURL "s3" "" None bucket (String "/" path) false false "" "")).
  assert (Hhash : no_byte "#" r = true).
  { unfold r, no_byte. rewrite str_forallb_app. simpl.
    apply andb_true_iff. split; class_to_no_byte. }
  assert (Hq : no_byte "?" r = true).
  { unfold r, no_byte. rewrite str_forallb_app. simpl.
    apply andb_true_iff. split; class_to_no_byte. }
  assert (Hctl : str_existsb url.isCTL r = false).
  { apply str_existsb_forallb. unfold r. rewrite str_forallb_app. simpl.
    apply andb_true_iff. split.
    - revert Hb. apply str_forallb_impl. intros c Hc.
      apply bucket_byte_facts in Hc as (Hc & _). rewrite Hc. reflexivity.
    - revert Hp. apply str_forallb_impl. intros c Hc.
      apply path_byte_facts in Hc as (Hc & _). rewrite Hc. reflexivity. }
  unfold url.Parse.
  rewrite (Cut_no_byte "#" ("s3://" ++ r)) by (simpl; exact Hhash).
  unfold url.parse.
  replace (url.stringContainsCTLByte ("s3://" ++ r)) with false
    by (symmetry; simpl; exact Hctl).
  replace (String.eqb ("s3://" ++ r) "*") with false by reflexivity.
  replace (url.getScheme ("s3://" ++ r)) with
    (inr ("s3", "//" ++ r) : url.Error + (string * string)) by reflexivity.
  replace (strings.ToLower "s3") with "s3" by reflexivity.
  rewrite (CountByte_no_byte "?" ("//" ++ r)) by (simpl; exact Hq).
  rewrite andb_false_r.
  rewrite (Cut_no_byte "?" ("//" ++ r)) by (simpl; exact Hq).
  cbn -[strings.Index url.parseAuthority url.unescape].
  unfold r at 1.
  rewrite (Index_app_byte "/" bucket path) by class_to_no_byte.
  unfold r. rewrite take_app, drop_app.
  rewrite (parseAuthority_plain bucket Hb).
  rewrite (unescape_no_percent url.encodePath (String "/" path));
    [reflexivity | reflexivity | discriminate |].
  unfold no_byte; simpl. class_to_no_byte.
Qed.

(** C1 (as the code has it). [parseConn] first parses the whole string as
    a URI and returns the error when that fails.  A string that parses
    with the scheme [s3] resolves to the kind S3, with the host of the
    URI as bucket and the path of the URI less one leading [/] as path;
    [strings.TrimPrefix] removes that one [/] and no more.  For
    [s3://bucket/path], with a bucket and a path that need no escaping,
    the host is [bucket] and the path of the URI is [/path]: the
    descriptor holds [bucket] and [path], and a [path] that itself starts
    with [/] is kept whole. *)
Theorem parseConn_s3 :
  (forall cStr err, url.Parse cStr = inl err -> parseConn cStr = inl err)
  /\ (forall cStr u,
        url.Parse cStr = inr u ->
        url.Scheme u = "s3" ->
        parseConn cStr
        = inr (mkConnect storage.TypeS3 (url.Host u)
                         (strings.TrimPrefix (url.Path u) "/")))
  /\ (forall p, strings.TrimPrefix (String "/" p) "/" = p)
  /\ (forall p, strings.HasPrefix p "/" = false ->
                strings.TrimPrefix p "/" = p)
  /\ (forall bucket path,
        str_forallb bucket_byte bucket = true ->
        str_forallb path_byte path = true ->
        url.Parse ("s3://" ++ bucket ++ "/" ++ path)
        = inr (url.mkURL "s3" "" None bucket ("/" ++ path)
                         false false "" "")
        /\ parseConn ("s3://" ++ bucket ++ "/" ++ path)
           = inr (mkConnect storage.TypeS3 bucket path)).
Proof.
  split; [|split; [|split; [|split]]].
  - intros cStr err E. unfold parseConn. rewrite E. reflexivity.
  - intros cStr u E Hs. unfold parseConn. rewrite E, Hs. reflexivity.
  - reflexivity.
  - intros p Hp. unfold strings.TrimPrefix. rewrite Hp. reflexivity.
  - intros bucket path Hb Hp.
    pose proof (Parse_s3 bucket path Hb Hp) as HP.
    split; [exact HP|]. unfold parseConn. rewrite HP. reflexivity.
Qed.

Lemma setFragment_fields (u u' : url.URL) (f : string) :
  url.setFragment u f = inr u' ->
  url.Scheme u' = url.Scheme u /\ url.Host u' = url.Host u
  /\ url.Path u' = url.Path u.
Proof.
  unfold url.setFragment. destruct (url.unescape f url.encodeFragment);
    [discriminate|].
  intros H. inversion H. simpl. auto.
Qed.

Lemma parse_Scheme (rawURL : string) (u : url.URL) :
  url.parse rawURL = inr u ->
  rawURL <> "*" ->
  exists scheme rest,
    url.getScheme rawURL = inr (scheme, rest)
    /\ url.Scheme u = strings.ToLower scheme.
Proof.
  unfold url.parse. intros H Hstar.
  destruct (url.stringContainsCTLByte rawURL); [discriminate|].
  destruct (String.eqb_spec rawURL "*") as [E|_]; [contradiction|].
  destruct (url.getScheme rawURL) as [e|[scheme rest]]; [discriminate|].
  exists scheme, rest. split; [reflexivity|].
  repeat match type of H with
         | context [match ?x with _ => _ end] => destruct x
         | context [if ?x then _ else _] => destruct x
         end;
    try discriminate; inversion H; reflexivity.
Qed.

Lemma Parse_parse (rawURL : string) (u : url.URL) :
  url.Parse rawURL = inr u ->
  exists u0,
    url.parse (fst (fst (strings.Cut rawURL "#"))) = inr u0
    /\ url.Scheme u = url.Scheme u0 /\ url.Host u = url.Host u0
    /\ url.Path u = url.Path u0.
Proof.
  unfold url.Parse.
  destruct (strings.Cut rawURL "#") as [[before frag] found]. simpl.
  destruct (url.parse before) as [e|u0]; [discriminate|].
  destruct (String.eqb frag "").
  - intros H. inversion H. subst. exists u. auto.
  - intros H. exists u0. split; [reflexivity|].
    apply setFragment_fields in H. exact H.
Qed.

Lemma Cut_hash_fs (X : string) :
  exists X', fst (fst (strings.Cut ("fs://" ++ X) "#")) = "fs://" ++ X'.
Proof.
  unfold strings.Cut. simpl.
  destruct (strings.Index X "#") as [i|]; simpl.
  - exists (strings.take i X). reflexivity.
  - exists X. reflexivity.
Qed.

Lemma Parse_fs_Scheme (X : string) (u : url.URL) :
  url.Parse ("fs://" ++ X) = inr u -> url.Scheme u = "fs".
Proof.
  intros H. apply Parse_parse in H as (u0 & H0 & Hs & _).
  destruct (Cut_hash_fs X) as [X' E]. rewrite E in H0.
  apply parse_Scheme in H0 as (scheme & rest & Hg & Hs0); [|discriminate].
  change (url.getScheme ("fs://" ++ X'))
    with (inr ("fs", "//" ++ X') : url.Error + (string * string)) in Hg.
  inversion Hg; subst. rewrite Hs, Hs0. reflexivity.
Qed.

Lemma Parse_fs_absolute (X : string) :
  strings.HasPrefix X "/" = true ->
  str_forallb path_byte X = true ->
  url.Parse ("fs://" ++ X)
  = inr (url.mkURL "fs" "" None "" X false false "" "").
Proof.
  intros Hs Hp.
  destruct X as [|c t]; [discriminate|].
  simpl in Hs. apply andb_true_iff in Hs as [Hc _].
  apply Ascii.eqb_eq in Hc. subst c.
  set (X := String "/" t) in *.
  assert (Hhash : no_byte "#" X = true) by class_to_no_byte.
  assert (Hq : no_byte "?" X = true) by class_to_no_byte.
  assert (Hpc : no_byte "%" X = true) by class_to_no_byte.
  assert (Hctl : str_existsb url.isCTL X = false).
  { apply str_existsb_forallb. revert Hp. apply str_forallb_impl.
    intros c Hc. apply path_byte_facts in Hc as (Hc & _).
    rewrite Hc. reflexivity. }
  unfold url.Parse.
  rewrite (Cut_no_byte "#" ("fs://" ++ X)) by (unfold no_byte; simpl; exact Hhash).
  unfold url.parse.
  replace (url.stringContainsCTLByte ("fs://" ++ X)) with false
    by (symmetry; simpl; exact Hctl).
  replace (String.eqb ("fs://" ++ X) "*") with false by reflexivity.
  replace (url.getScheme ("fs://" ++ X)) with
    (inr ("fs", "//" ++ X) : url.Error + (string * string)) by reflexivity.
  replace (strings.ToLower "fs") with "fs" by reflexivity.
  rewrite (CountByte_no_byte "?" ("//" ++ X)) by (unfold no_byte; simpl; exact Hq).
  rewrite andb_false_r.
  rewrite (Cut_no_byte "?" ("//" ++ X)) by (unfold no_byte; simpl; exact Hq).
  cbn -[url.unescape].
  fold X.
  rewrite (unescape_no_percent url.encodePath X);
    [reflexivity | reflexivity | discriminate | exact Hpc].
Qed.

(** C2 (as the code has it). [parseConn] first parses the whole string
    [fs://X] as a URI and returns the error when that fails; when it
    succeeds the descriptor has the kind FS and the path [X], byte for
    byte.  It succeeds in particular for an absolute path [X] without
    control bytes, [#], [?] and [%], whatever other bytes it holds. *)
Theorem parseConn_fs (X : string) :
  parseConn ("fs://" ++ X)
  = match url.Parse ("fs://" ++ X) with
    | inl err => inl err
    | inr _ => inr (mkConnect storage.TypeFS "" X)
    end
  /\ (strings.HasPrefix X "/" = true ->
      str_forallb path_byte X = true ->
      parseConn ("fs://" ++ X) = inr (mkConnect storage.TypeFS "" X)).
Proof.
  assert (H : parseConn ("fs://" ++ X)
              = match url.Parse ("fs://" ++ X) with
                | inl err => inl err
                | inr _ => inr (mkConnect storage.TypeFS "" X)
                end).
  { unfold parseConn.
    destruct (url.Parse ("fs://" ++ X)) as [e|u] eqn:E; [reflexivity|].
    rewrite (Parse_fs_Scheme X u E). cbn [String.eqb Ascii.eqb Bool.eqb].
    unfold strings.TrimPrefix. simpl. reflexivity. }
  split; [exact H|].
  intros Hs Hp. rewrite H, (Parse_fs_absolute X Hs Hp). reflexivity.
Qed.

Lemma bare_byte_facts (c : ascii) :
  bare_byte c = true -> path_byte c = true /\ Ascii.eqb c ":" = false.
Proof.
  unfold bare_byte. intros H. apply andb_true_iff in H as [H1 H2].
  apply negb_true_iff in H2. auto.
Qed.

Lemma getScheme_from_no_colon (rawURL s : string) (i : nat) :
  no_byte ":" s = true ->
  url.getScheme_from rawURL i s = inr ("", rawURL).
Proof.
  unfold no_byte. revert i. induction s as [|c t IH]; intros i; simpl;
    [reflexivity|].
  intros H. apply andb_true_iff in H as [Hc Ht].
  apply negb_true_iff in Hc. rewrite Hc.
  destruct (is_alpha c); [auto|].
  match goal with |- (if ?b then _ else _) = _ => destruct b end;
    [destruct (i =? 0)%nat; auto | reflexivity].
Qed.

Lemma no_byte_take (c : ascii) (n : nat) (s : string) :
  no_byte c s = true -> no_byte c (strings.take n s) = true.
Proof.
  unfold no_byte. revert n. induction s as [|d t IH]; intros [|n]; simpl;
    try reflexivity.
  intros H. apply andb_true_iff in H as [Hd Ht].
  rewrite Hd. simpl. auto.
Qed.

Lemma Contains_no_byte (c : ascii) (s : string) :
  no_byte c s = true -> strings.Contains s (String c "") = false.
Proof.
  intros H. unfold strings.Contains. rewrite (Index_no_byte c s H).
  reflexivity.
Qed.

Lemma Parse_bare (s : string) :
  bare_path s = true ->
  url.Parse s = inr (url.mkURL "" "" None "" s false false "" "").
Proof.
  unfold bare_path. intros H. apply andb_true_iff in H as [Hb Hss].
  apply negb_true_iff in Hss.
  assert (Hp : str_forallb path_byte s = true).
  { revert Hb. apply str_forallb_impl. intros c Hc.
    apply bare_byte_facts in Hc. tauto. }
  assert (Hcolon : no_byte ":" s = true).
  { revert Hb. apply str_forallb_impl. intros c Hc.
    apply bare_byte_facts in Hc as [_ Hc]. rewrite Hc. reflexivity. }
  assert (Hhash : no_byte "#" s = true) by class_to_no_byte.
  assert (Hq : no_byte "?" s = true) by class_to_no_byte.
  assert (Hpc : no_byte "%" s = true) by class_to_no_byte.
  assert (Hctl : url.stringContainsCTLByte s = false).
  { apply str_existsb_forallb. revert Hp. apply str_forallb_impl.
    intros c Hc. apply path_byte_facts in Hc as (Hc & _).
    rewrite Hc. reflexivity. }
  unfold url.Parse. rewrite (Cut_no_byte "#" s Hhash).
  unfold url.parse. rewrite Hctl.
  destruct (String.eqb_spec s "*") as [E|_]; [subst s; reflexivity|].
  unfold url.getScheme. rewrite (getScheme_from_no_colon s s 0 Hcolon).
  cbn [strings.ToLower].
  rewrite (CountByte_no_byte "?" s Hq), andb_false_r.
  rewrite (Cut_no_byte "?" s Hq).
  cbn [String.eqb negb andb orb].
  assert (Hseg : (let '(segment, _, _) := strings.Cut s "/" in
                  strings.Contains segment ":") = false).
  { unfold strings.Cut. destruct (strings.Index s "/").
    - apply Contains_no_byte, no_byte_take, Hcolon.
    - apply Contains_no_byte, Hcolon. }
  rewrite Hseg, andb_false_r, Hss.
  rewrite (unescape_no_percent url.encodePath s);
    [| reflexivity | discriminate | exact Hpc].
  destruct (strings.HasPrefix s "///"); reflexivity.
Qed.

(** C3 (as the code has it). A string that fails to parse as a URI yields
    that error.  A string that parses with a scheme other than [s3] and
    [fs] (no scheme included) resolves to the kind FS with the string
    itself as path; so does every bare path, that is every string that
    holds no control byte and none of [#], [?], [%] and [:], and does not
    start with [//]. *)
Theorem parseConn_no_scheme (cStr : string) :
  (forall err, url.Parse cStr = inl err -> parseConn cStr = inl err)
  /\ (forall u, url.Parse cStr = inr u ->
                url.Scheme u <> "s3" -> url.Scheme u <> "fs" ->
                parseConn cStr = inr (mkConnect storage.TypeFS "" cStr))
  /\ (bare_path cStr = true ->
      parseConn cStr = inr (mkConnect storage.TypeFS "" cStr)).
Proof.
  unfold parseConn. split; [|split].
  - intros err E. rewrite E. reflexivity.
  - intros u E H3 Hf. rewrite E.
    destruct (String.eqb_spec (url.Scheme u) "s3"); [contradiction|].
    destruct (String.eqb_spec (url.Scheme u) "fs"); [contradiction|].
    reflexivity.
  - intros Hb. rewrite (Parse_bare cStr Hb). reflexivity.
Qed.


(** C1 as stated fails: a string of the form [s3://bucket/path] whose path
    holds an ill-formed escape is refused, and with an authority
    [user@bucket] the bucket is the host [bucket], not the authority. *)
Lemma parseConn_s3_not_authority :
  parseConn "s3://bucket/100%" = inl (url.EscapeError "%")
  /\ parseConn "s3://user@bucket/path"
     = inr (mkConnect storage.TypeS3 "bucket" "path").
Proof. split; reflexivity. Qed.

Lemma parseConn_s3_witness :
  parseConn "s3://bucket/path"
  = inr (mkConnect storage.TypeS3 "bucket" "path")
  /\ parseConn "s3://bucket//path"
     = inr (mkConnect storage.TypeS3 "bucket" "/path")
  /\ parseConn "s3://my-bucket.example/dir/report%202024.txt"
     = inr (mkConnect storage.TypeS3 "my-bucket.example"
                      "dir/report 2024.txt")
  /\ parseConn "s3://bucket/100%" = inl (url.EscapeError "%").
Proof.
  pose proof parseConn_s3 as (Refused & General & _ & _ & Plain).
  split; [|split; [|split]].
  - exact (proj2 (Plain "bucket" "path" eq_refl eq_refl)).
  - exact (proj2 (Plain "bucket" "/path" eq_refl eq_refl)).
  - exact (General "s3://my-bucket.example/dir/report%202024.txt" _
                   eq_refl eq_refl).
  - exact (Refused "s3://bucket/100%" _ eq_refl).
Defined.

(** C2 as stated fails: a directory name with a percent sign is not a
    well-formed escape, and the resolution of [fs:///tmp/100%] ends in the
    error of [url.Parse]. *)
Lemma parseConn_fs_percent :
  parseConn ("fs://" ++ "/tmp/100%") = inl (url.EscapeError "%").
Proof. reflexivity. Qed.

Lemma parseConn_fs_witness :
  parseConn ("fs://" ++ "/tmp/my files")
  = inr (mkConnect storage.TypeFS "" "/tmp/my files").
Proof.
  exact (proj2 (parseConn_fs "/tmp/my files") eq_refl eq_refl).
Defined.

(** C3 as stated fails: plain paths that are not well-formed URIs are
    refused, with no fall-back to the kind FS. *)
Lemma parseConn_bare_refused :
  parseConn "/data/100%" = inl (url.EscapeError "%")
  /\ parseConn "backup 1:2/x" = inl url.ErrFirstSegmentColon.
Proof. split; reflexivity. Qed.

Lemma parseConn_no_scheme_witness :
  parseConn "/data/dir" = inr (mkConnect storage.TypeFS "" "/data/dir")
  /\ parseConn "C:\dir" = inr (mkConnect storage.TypeFS "" "C:\dir").
Proof.
  split.
  - exact (proj2 (proj2 (parseConn_no_scheme "/data/dir")) eq_refl).
  - refine (proj1 (proj2 (parseConn_no_scheme "C:\dir")) _ eq_refl _ _);
      discriminate.
Defined.



(** ** The bandwidth parser *)

Lemma runes_ascii (s : string) :
  str_forallb (fun c => (byte_val c <? 128)%N) s = true ->
  utf8.runes s = map utf8.bz (str_bytes s).
Proof.
  induction s as [|c t IH]; simpl; [reflexivity|].
  intros H. apply andb_true_iff in H as [Hc Ht].
  assert (E : (utf8.bz c <? 128)%Z = true).
  { unfold utf8.bz. apply N.ltb_lt in Hc. apply Z.ltb_lt. lia. }
  rewrite E, (IH Ht). reflexivity.
Qed.

Lemma digit_byte_facts (c : ascii) :
  is_digit09 c = true ->
  (byte_val c <? 128)%N = true
  /\ (forall Nd, unicode.IsDigit Nd (utf8.bz c) = true)
  /\ unicode.IsSpace (utf8.bz c) = false
  /\ utf8.EncodeRune (utf8.bz c) = String c EmptyString
  /\ (9 <? (utf8.bz c - 48) mod 256)%Z = false
  /\ ((utf8.bz c - 48) mod 256 = utf8.bz c - 48)%Z
  /\ Ascii.eqb c "-" = false /\ Ascii.eqb c "+" = false.
Proof.
  destruct c as [[] [] [] [] [] [] [] []]; try discriminate;
    intros _; repeat split; reflexivity.
Qed.

Lemma unit_byte_facts (c : ascii) (m : Z) :
  unit_multiplier c = Some m ->
  (byte_val c <? 128)%N = true
  /\ (forall Nd, unicode.IsDigit Nd (utf8.bz c) = false)
  /\ unicode.IsSpace (utf8.bz c) = false.
Proof.
  destruct c as [[] [] [] [] [] [] [] []]; try discriminate;
    intros _; repeat split; reflexivity.
Qed.

Lemma str_bytes_app (a b : string) :
  str_bytes (a ++ b) = (str_bytes a ++ str_bytes b)%list.
Proof.
  induction a as [|c t IH]; simpl; [reflexivity|]. rewrite IH. reflexivity.
Qed.

Lemma append_snoc (a t : string) (c : ascii) :
  (a ++ String c EmptyString) ++ t = a ++ String c t.
Proof.
  induction a as [|d a IH]; simpl; [reflexivity|]. rewrite IH. reflexivity.
Qed.

Lemma trim_space_id (r r' : utf8.rune) (rs : list utf8.rune) :
  unicode.IsSpace r = false -> unicode.IsSpace r' = false ->
  trim_space (r :: rs ++ [r']) = r :: rs ++ [r'].
Proof.
  intros H H'. unfold trim_space.
  assert (E : trim_left (r :: rs ++ [r']) = r :: rs ++ [r'])
    by (simpl; rewrite H; reflexivity).
  rewrite E.
  assert (E' : rev (r :: rs ++ [r']) = r' :: (rev rs ++ [r])%list)
    by (simpl; rewrite rev_app_distr; reflexivity).
  rewrite E'. simpl. rewrite H'. rewrite <- E'. apply rev_involutive.
Qed.

Section BandwidthProperties.

Variable Nd : utf8.rune -> bool.

Lemma trim_left_all_space (rs : list utf8.rune) :
  forallb unicode.IsSpace rs = true -> trim_left rs = [].
Proof.
  induction rs as [|r rs IH]; simpl; [reflexivity|].
  intros H. apply andb_true_iff in H as [Hr Hrs].
  rewrite Hr. auto.
Qed.

Lemma trim_space_all_space (rs : list utf8.rune) :
  forallb unicode.IsSpace rs = true -> trim_space rs = [].
Proof.
  intros H. unfold trim_space.
  rewrite (trim_left_all_space rs H). reflexivity.
Qed.

(** C4. The bandwidth parser on the six test vectors: the empty string is
    the rate 0, a number is itself, [K], [M] and [G] scale by 1024, 1024^2
    and 1024^3, and the letter [X] is refused. *)
Theorem parseBandwith_vectors :
  parseBandwith Nd "" = (0%Z, true)
  /\ parseBandwith Nd "100" = (100%Z, true)
  /\ parseBandwith Nd "10K" = (10240%Z, true)
  /\ parseBandwith Nd "1M" = (1048576%Z, true)
  /\ parseBandwith Nd "2G" = (2147483648%Z, true)
  /\ parseBandwith Nd "10X" = (0%Z, false).
Proof.
  repeat split; vm_compute; reflexivity.
Qed.

(** C5. A string that is not empty and holds white space only is refused:
    [parseBandwith] returns [(0, false)], not the [(0, true)] of the empty
    string.  The test [s == ""] comes before [strings.TrimSpace], so the
    blank string reaches [strconv.Atoi] with no digit. *)
Theorem parseBandwith_blank (s : string) :
  s <> "" ->
  forallb unicode.IsSpace (utf8.runes s) = true ->
  parseBandwith Nd s = (0%Z, false).
Proof.
  intros Hne Hsp. unfold parseBandwith.
  destruct (String.eqb_spec s "") as [E|_]; [contradiction|].
  rewrite (trim_space_all_space _ Hsp). reflexivity.
Qed.

Lemma parseBandwith_loop_digits (ds : string) :
  str_forallb is_digit09 ds = true ->
  forall rest acc m,
    parseBandwith_loop Nd (map utf8.bz (str_bytes ds) ++ rest) acc m
    = parseBandwith_loop Nd rest (acc ++ ds) m.
Proof.
  induction ds as [|c t IH]; simpl; intros H rest acc m.
  - f_equal. induction acc as [|d a IHa]; simpl; congruence.
  - apply andb_true_iff in H as [Hc Ht].
    apply digit_byte_facts in Hc as (_ & Hd & _ & He & _).
    rewrite (Hd Nd), He, (IH Ht), append_snoc. reflexivity.
Qed.

Lemma parseBandwith_loop_unit (u : ascii) (m : Z) :
  unit_multiplier u = Some m ->
  forall acc m0, parseBandwith_loop Nd [utf8.bz u] acc m0 = Some (acc, m).
Proof.
  destruct u as [[] [] [] [] [] [] [] []]; try discriminate;
    intros H; inversion H; reflexivity.
Qed.

Lemma Atoi_fast_digits (ds : string) :
  str_forallb is_digit09 ds = true ->
  forall n, strconv.Atoi_fast n ds = inr (decimal_from n ds).
Proof.
  induction ds as [|c t IH]; simpl; intros H n; [reflexivity|].
  apply andb_true_iff in H as [Hc Ht].
  apply digit_byte_facts in Hc as (_ & _ & _ & _ & H9 & Hm & _).
  rewrite H9, Hm. apply (IH Ht).
Qed.

Lemma Atoi_digits (ds : string) :
  ds <> "" ->
  str_forallb is_digit09 ds = true ->
  (String.length ds < 19)%nat ->
  strconv.Atoi ds = inr (decimal ds).
Proof.
  intros Hne Hd Hlen. unfold strconv.Atoi.
  assert (E : ((0 <? Z.of_nat (String.length ds))%Z
               && (Z.of_nat (String.length ds) <? 19)%Z) = true).
  { destruct ds; [contradiction|]. simpl String.length in *.
    apply andb_true_iff. split; apply Z.ltb_lt; lia. }
  rewrite E. destruct ds as [|c t]; [contradiction|].
  pose proof Hd as Hd'. simpl in Hd'. apply andb_true_iff in Hd' as [Hc _].
  apply digit_byte_facts in Hc as (_ & _ & _ & _ & _ & _ & Hminus & Hplus).
  rewrite Hminus, Hplus. cbn [orb andb].
  rewrite (Atoi_fast_digits _ Hd). reflexivity.
Qed.

(** A number of at most 18 digits followed by a unit letter: the rate is
    the product reduced to 64 bits, whatever its size. *)
Lemma parseBandwith_scaled (ds : string) (u : ascii) (m : Z) :
  ds <> "" ->
  str_forallb is_digit09 ds = true ->
  (String.length ds < 19)%nat ->
  unit_multiplier u = Some m ->
  parseBandwith Nd (ds ++ String u "") = (wrap_int (decimal ds * m), true).
Proof.
  intros Hne Hd Hlen Hu. unfold parseBandwith.
  assert (E : String.eqb (ds ++ String u "") "" = false)
    by (destruct ds; [contradiction | reflexivity]).
  rewrite E.
  assert (Hascii : str_forallb (fun c => (byte_val c <? 128)%N)
                     (ds ++ String u "") = true).
  { rewrite str_forallb_app. apply andb_true_iff. split.
    - revert Hd. apply str_forallb_impl. intros c Hc.
      apply digit_byte_facts in Hc. tauto.
    - simpl. apply unit_byte_facts in Hu as (Hb & _). rewrite Hb. reflexivity. }
  rewrite (runes_ascii _ Hascii), str_bytes_app, map_app. simpl.
  destruct ds as [|c t]; [contradiction|]. 
  pose proof Hd as Hd'. simpl in Hd'. apply andb_true_iff in Hd' as [Hc _].
  apply digit_byte_facts in Hc as (_ & _ & Hsp & _).
  apply unit_byte_facts in Hu as Hu'. destruct Hu' as (_ & _ & Hsu).
  change (map utf8.bz (str_bytes (String c t)) ++ [utf8.bz u])%list
    with (utf8.bz c :: map utf8.bz (str_bytes t) ++ [utf8.bz u])%list.
  rewrite (trim_space_id _ _ _ Hsp Hsu).
  change (utf8.bz c :: map utf8.bz (str_bytes t) ++ [utf8.bz u])%list
    with (map utf8.bz (str_bytes (String c t)) ++ [utf8.bz u])%list.
  rewrite (parseBandwith_loop_digits _ Hd).
  rewrite (parseBandwith_loop_unit u m Hu).
  cbn [String.append].
  rewrite (Atoi_digits (String c t) Hne Hd Hlen). reflexivity.
Qed.
(** C10. The scaling is a 64-bit multiplication that is not checked.  For
    digits followed by a unit letter the parser reports success with the
    product reduced to 64 bits; on ["9000000000000000000K"] the digits fit
    an [int], the product by 1024 does not, and the rate returned is the
    wrapped, negative one. *)
Theorem parseBandwith_overflow :
  (forall ds u m,
      ds <> "" ->
      str_forallb is_digit09 ds = true ->
      (String.length ds < 19)%nat ->
      unit_multiplier u = Some m ->
      parseBandwith Nd (ds ++ String u "")
      = (wrap_int (decimal ds * m), true))
  /\ parseBandwith Nd "9000000000000000000K"
     = ((-7372036854775808000)%Z, true)
  /\ strconv.Atoi "9000000000000000000" = inr 9000000000000000000%Z
  /\ (2 ^ 63 - 1 < 9000000000000000000 * 1024)%Z
  /\ wrap_int (9000000000000000000 * 1024) = (-7372036854775808000)%Z.
Proof.
  split; [exact parseBandwith_scaled|].
  repeat split; vm_compute; reflexivity.
Qed.

End BandwidthProperties.

Lemma parseBandwith_overflow_witness :
  parseBandwith Nd_excerpt "999999999999999999K"
  = (wrap_int (999999999999999999 * 1024), true)
  /\ wrap_int (999999999999999999 * 1024) = (-9017668127734891520)%Z.
Proof.
  split.
  - apply (proj1 (parseBandwith_overflow Nd_excerpt)
             "999999999999999999" "K"%char 1024%Z).
    + discriminate.
    + reflexivity.
    + simpl. lia.
    + reflexivity.
  - reflexivity.
Defined.

Lemma parseBandwith_blank_witness :
  parseBandwith Nd_excerpt "  " = (0%Z, false).
Proof.
  apply (parseBandwith_blank Nd_excerpt "  ").
  - discriminate.
  - reflexivity.
Defined.

(** ** Configuration resolution *)

Lemma bind_Ok {A B} (m : M A) (k : A -> M B) env b env' :
  bind m k env = (Ok b, env') ->
  exists a env1, m env = (Ok a, env1) /\ k a env1 = (Ok b, env').
Proof.
  unfold bind. destruct (m env) as [[a|e|msg] env1]; intros H;
    try discriminate.
  exists a, env1. split; [reflexivity | exact H].
Qed.

Lemma switch_OnFail_Ok s a env env' :
  switch_OnFail s env = (Ok a, env') ->
  env' = env
  /\ (s = "fatal" /\ a = onFailFatal
      \/ s = "skip" /\ a = onFailSkip
      \/ s = "skipmissing" /\ a = onFailSkipMissing).
Proof.
  unfold switch_OnFail, ret, p_Fail.
  destruct (String.eqb_spec s "fatal");
    [ intros H; inversion H; auto |].
  destruct (String.eqb_spec s "skip");
    [ intros H; inversion H; auto |].
  destruct (String.eqb_spec s "skipmissing");
    [ intros H; inversion H; auto 6 |].
  discriminate.
Qed.

Lemma switch_OnFail_other s env :
  s <> "fatal" -> s <> "skip" -> s <> "skipmissing" ->
  switch_OnFail s env = (Fail msg_on_fail, env).
Proof.
  intros H1 H2 H3. unfold switch_OnFail.
  destruct (String.eqb_spec s "fatal"); [contradiction|].
  destruct (String.eqb_spec s "skip"); [contradiction|].
  destruct (String.eqb_spec s "skipmissing"); [contradiction|].
  reflexivity.
Qed.

Lemma check_S3Acl_env acl env :
  check_S3Acl acl env = (Ok tt, env) \/ check_S3Acl acl env = (Fail msg_acl, env).
Proof.
  unfold check_S3Acl. destruct (existsb _ _); [left | right]; reflexivity.
Qed.

(** One step of a run whose branches all end the same way on both sides:
    case analysis on the innermost test. *)
Ltac step_run :=
  match goal with
  | |- context [match ?x with _ => _ end] =>
      lazymatch x with
      | context [match _ with _ => _ end] => fail
      | _ => destruct x eqn:?
      end
  end.

Section Resolution.

Variable Nd : utf8.rune -> bool.

(** C6. The on-failure switch maps ["fatal"], ["skip"] and ["skipmissing"]
    to [onFailFatal], [onFailSkip] and [onFailSkipMissing]; a resolution
    that succeeds has read one of these three strings, spelled exactly so,
    and carries the matching action; on any other string the switch calls
    [p.Fail] and the resolution ends in a failure. *)
Theorem on_fail_validator (rawCli : raw.args) (env : Env) :
  (switch_OnFail "fatal" env = (Ok onFailFatal, env)
   /\ switch_OnFail "skip" env = (Ok onFailSkip, env)
   /\ switch_OnFail "skipmissing" env = (Ok onFailSkipMissing, env))
  /\ (forall cli env',
        GetCliArgs Nd rawCli env = (Ok cli, env') ->
        raw.OnFail rawCli = "fatal" /\ OnFail cli = onFailFatal
        \/ raw.OnFail rawCli = "skip" /\ OnFail cli = onFailSkip
        \/ raw.OnFail rawCli = "skipmissing" /\ OnFail cli = onFailSkipMissing)
  /\ (raw.OnFail rawCli <> "fatal" ->
      raw.OnFail rawCli <> "skip" ->
      raw.OnFail rawCli <> "skipmissing" ->
      switch_OnFail (raw.OnFail rawCli) env = (Fail msg_on_fail, env)
      /\ exists msg, GetCliArgs Nd rawCli env = (Fail msg, env)).
Proof.
  split; [repeat split | split].
  - intros cli env' H. unfold GetCliArgs in H.
    apply bind_Ok in H as (_ & env1 & _ & H).
    apply bind_Ok in H as (a & env2 & Hsw & H).
    apply switch_OnFail_Ok in Hsw as (_ & Hsw).
    repeat (apply bind_Ok in H as (? & ? & _ & H)).
    unfold ret in H. inversion H; subst; simpl. exact Hsw.
  - intros H1 H2 H3. split; [apply switch_OnFail_other; assumption|].
    unfold GetCliArgs. unfold bind at 1.
    destruct (check_S3Acl_env (raw.S3Acl rawCli) env) as [E|E]; rewrite E.
    + unfold bind at 1. rewrite switch_OnFail_other by assumption.
      eexists; reflexivity.
    + eexists; reflexivity.
Qed.

(** C8 (as the code has it). With [--filter-modified] and
    [--fs-disable-xattr] both set no configuration is produced.  The checks
    run in a fixed order and the first failure ends the run: the run ends
    as the same options without [--filter-modified] would, except that
    where those resolve, it fails with the message that the filter
    requires xattr.  The environment is left as that run leaves it. *)
Theorem filter_modified_requires_xattr (rawCli : raw.args) (env : Env) :
  raw.FilterModified rawCli = true ->
  raw.FSDisableXattr rawCli = true ->
  (forall cli env', GetCliArgs Nd rawCli env <> (Ok cli, env'))
  /\ ending (fst (GetCliArgs Nd rawCli env))
     = match fst (GetCliArgs Nd (clear_FilterModified rawCli) env) with
       | Ok _ => Fail msg_xattr
       | Err e => Err e
       | Fail msg => Fail msg
       end
  /\ snd (GetCliArgs Nd rawCli env)
     = snd (GetCliArgs Nd (clear_FilterModified rawCli) env).
Proof.
  intros Hm Hx. split.
  - intros cli env' H. unfold GetCliArgs in H.
    do 10 (apply bind_Ok in H as (? & ? & _ & H)).
    apply bind_Ok in H as (? & ? & H & _).
    rewrite Hm, Hx in H. discriminate.
  - unfold GetCliArgs, bind, lift_parseConn, parse_perm, when, isatty_stdout,
      ret, p_Fail, return_err, os_Getenv_GODEBUG, os_Setenv_GODEBUG.
    cbn [raw.FilterModified raw.FSDisableXattr clear_FilterModified raw.S3Acl
         raw.OnFail raw.RateLimitBandwidth raw.Source raw.Target
         raw.ShowProgress raw.FSFilePerm raw.FSDirPerm raw.DisableHTTP2 andb].
    rewrite Hm, Hx. cbn [andb].
    repeat (step_run; cbn [fst snd ending]); try congruence;
      split; reflexivity.
Qed.

(** C9. Resolution is a function of the raw options and of whether standard
    output is a terminal: two runs on the same options in environments
    that agree on the terminal end alike, with the same configuration,
    whatever [GODEBUG] holds; so does a second run in the environment the
    first one leaves, where [GODEBUG] may have been extended. *)
Theorem GetCliArgs_deterministic (rawCli : raw.args) (env1 env2 : Env) :
  stdoutIsTerminal env1 = stdoutIsTerminal env2 ->
  fst (GetCliArgs Nd rawCli env1) = fst (GetCliArgs Nd rawCli env2)
  /\ fst (GetCliArgs Nd rawCli (snd (GetCliArgs Nd rawCli env1)))
     = fst (GetCliArgs Nd rawCli env1).
Proof.
  intros Htty. destruct env1 as [t1 g1], env2 as [t2 g2].
  simpl in Htty. subst t2.
  unfold GetCliArgs, bind, check_S3Acl, switch_OnFail, lift_parseConn,
    parse_perm, when, isatty_stdout, ret, p_Fail, return_err,
    os_Getenv_GODEBUG, os_Setenv_GODEBUG.
  cbn [stdoutIsTerminal GODEBUG].
  repeat (step_run; cbn [fst snd stdoutIsTerminal GODEBUG]); try congruence;
    split; reflexivity.
Qed.

End Resolution.

Lemma on_fail_validator_witness :
  raw.OnFail (sample_args "skip" false false false) = "skip"
  /\ (exists cli env',
        GetCliArgs Nd_excerpt (sample_args "skip" false false false)
                   (mkEnv true "") = (Ok cli, env')
        /\ OnFail cli = onFailSkip)
  /\ exists msg,
       GetCliArgs Nd_excerpt (sample_args "Skip" false false false)
                  (mkEnv true "") = (Fail msg, mkEnv true "").
Proof.
  split; [reflexivity | split].
  - do 2 eexists. split; [vm_compute; reflexivity|].
    destruct (proj1 (proj2 (on_fail_validator Nd_excerpt
                (sample_args "skip" false false false) (mkEnv true "")))
                _ _ eq_refl) as [[E _]|[[_ E]|[E _]]];
      [discriminate E | exact E | discriminate E].
  - apply (proj2 (proj2 (on_fail_validator Nd_excerpt
             (sample_args "Skip" false false false) (mkEnv true ""))));
      discriminate.
Defined.

(** C8 as stated fails: with an on-failure action that is not in the list,
    the run ends in the on-failure message although both flags are set. *)
Lemma filter_modified_other_failure :
  raw.FilterModified (sample_args "never" true true false) = true
  /\ raw.FSDisableXattr (sample_args "never" true true false) = true
  /\ GetCliArgs Nd_excerpt (sample_args "never" true true false)
                (mkEnv true "")
     = (Fail msg_on_fail, mkEnv true "")
  /\ msg_on_fail <> msg_xattr.
Proof.
  repeat split; try reflexivity. discriminate.
Qed.

Lemma filter_modified_requires_xattr_witness :
  ending (fst (GetCliArgs Nd_excerpt (sample_args "fatal" true true true)
                          (mkEnv true "")))
  = Fail msg_xattr
  /\ snd (GetCliArgs Nd_excerpt (sample_args "fatal" true true true)
                     (mkEnv true ""))
     = mkEnv true "http2client=0".
Proof.
  exact (proj2 (filter_modified_requires_xattr Nd_excerpt
                  (sample_args "fatal" true true true) (mkEnv true "")
                  eq_refl eq_refl)).
Defined.

Lemma GetCliArgs_deterministic_witness :
  fst (GetCliArgs Nd_excerpt (sample_args "fatal" false false true)
                  (mkEnv true ""))
  = fst (GetCliArgs Nd_excerpt (sample_args "fatal" false false true)
                    (mkEnv true "http2client=0"))
  /\ fst (GetCliArgs Nd_excerpt (sample_args "fatal" false false true)
            (snd (GetCliArgs Nd_excerpt (sample_args "fatal" false false true)
                             (mkEnv true ""))))
     = fst (GetCliArgs Nd_excerpt (sample_args "fatal" false false true)
                       (mkEnv true "")).
Proof.
  apply (GetCliArgs_deterministic Nd_excerpt
           (sample_args "fatal" false false true)
           (mkEnv true "") (mkEnv true "http2client=0")).
  reflexivity.
Defined.

(** * Further properties *)

(** ** Numbers in [strconv] *)

Lemma digits_value_ge (base : Z) (p : ascii -> bool) (s : string) :
  (1 <= base)%Z ->
  (forall c, p c = true -> (0 <= utf8.bz c - 48)%Z) ->
  str_forallb p s = true ->
  forall n, (0 <= n)%Z -> (n <= digits_value base n s)%Z.
Proof.
  intros Hb Hp. induction s as [|c t IH]; simpl; intros H n Hn; [lia|].
  apply andb_true_iff in H as [Hc Ht]. apply Hp in Hc.
  specialize (IH Ht (n * base + (utf8.bz c - 48))%Z). nia.
Qed.

Lemma ParseUint_loop_digits (base maxVal : Z) (p : ascii -> bool) :
  (1 < base <= 36)%Z ->
  (0 <= maxVal <= strconv.maxUint64)%Z ->
  (forall c, p c = true ->
             strconv.digit_val c = Some (utf8.bz c - 48)%Z
             /\ (0 <= utf8.bz c - 48 < base)%Z) ->
  forall s, str_forallb p s = true ->
  forall n, (0 <= n <= maxVal)%Z ->
    strconv.ParseUint_loop base (strconv.maxUint64 / base + 1) maxVal n s
    = if (digits_value base n s <=? maxVal)%Z
      then inr (digits_value base n s) else inl strconv.ErrRange.
Proof.
  intros Hb Hmax Hp.
  assert (Hge : forall c, p c = true -> (0 <= utf8.bz c - 48)%Z)
    by (intros c Hc; apply Hp in Hc; lia).
  unfold strconv.maxUint64 in *.
  assert (Hdiv : ((2 ^ 64 - 1) / base * base <= 2 ^ 64 - 1
                  < ((2 ^ 64 - 1) / base + 1) * base)%Z).
  { pose proof (Z.div_mod (2 ^ 64 - 1) base ltac:(lia)).
    pose proof (Z.mod_pos_bound (2 ^ 64 - 1) base ltac:(lia)). nia. }
  remember ((2 ^ 64 - 1) / base + 1)%Z as cutoff eqn:Ecut.
  induction s as [|c t IH]; intros H n Hn;
    cbn [strconv.ParseUint_loop digits_value str_forallb] in *.
  - destruct (Z.leb_spec n maxVal); [reflexivity | lia].
  - apply andb_true_iff in H as [Hc Ht].
    destruct (Hp c Hc) as [Hd Hr]. rewrite Hd.
    remember (utf8.bz c - 48)%Z as d eqn:Ed.
    destruct (Z.leb_spec base d); [lia|].
    pose proof (digits_value_ge base p t ltac:(lia) Hge Ht (n * base + d)%Z
                  ltac:(nia)) as Hmono.
    destruct (Z.leb_spec cutoff n) as [Hcut|Hcut].
    { destruct (Z.leb_spec (digits_value base (n * base + d) t) maxVal);
        [nia | reflexivity]. }
    assert (Hnb : (n * base <= 2 ^ 64 - 1)%Z) by nia.
    destruct (Z.le_gt_cases (n * base + d) (2 ^ 64 - 1)) as [Hfit|Hover].
    + rewrite (Z.mod_small (n * base + d) (2 ^ 64)) by nia.
      destruct (Z.ltb_spec (n * base + d) (n * base)); [lia|].
      destruct (Z.ltb_spec maxVal (n * base + d)) as [Hbig|Hok];
        cbn [orb].
      * destruct (Z.leb_spec (digits_value base (n * base + d) t) maxVal);
          [lia | reflexivity].
      * apply (IH Ht). nia.
    + assert (Hm : ((n * base + d) mod 2 ^ 64 = n * base + d - (2 ^ 64))%Z).
      { symmetry. apply Z.mod_unique with (q := 1%Z); [left|]; lia. }
      rewrite Hm.
      destruct (Z.ltb_spec (n * base + d - (2 ^ 64)) (n * base)); [|lia].
      cbn [orb].
      destruct (Z.leb_spec (digits_value base (n * base + d) t) maxVal);
        [lia | reflexivity].
Qed.

Lemma ParseUint_loop_inr (base cutoff maxVal : Z) (p : ascii -> bool) :
  (forall c d, strconv.digit_val c = Some d -> (d < base)%Z -> p c = true) ->
  forall s n v,
    strconv.ParseUint_loop base cutoff maxVal n s = inr v ->
    str_forallb p s = true.
Proof.
  intros Hp. induction s as [|c t IH]; intros n v;
    cbn [strconv.ParseUint_loop str_forallb]; [reflexivity|].
  destruct (strconv.digit_val c) as [d|] eqn:Hd; [|discriminate].
  destruct (Z.leb_spec base d); [discriminate|].
  destruct (cutoff <=? n)%Z; [discriminate|].
  match goal with |- (if ?b then _ else _) = _ -> _ => destruct b end;
    [discriminate|].
  intros H'. rewrite (Hp c d Hd ltac:(lia)). apply (IH _ _ H').
Qed.

Lemma is_octal_digit_val (c : ascii) :
  is_octal c = true ->
  strconv.digit_val c = Some (utf8.bz c - 48)%Z
  /\ (0 <= utf8.bz c - 48 < 8)%Z.
Proof.
  destruct c as [[] [] [] [] [] [] [] []]; try discriminate; intros _;
    (split; [reflexivity | vm_compute; split; [discriminate | reflexivity]]).
Qed.

Lemma digit_val_is_octal (c : ascii) (d : Z) :
  strconv.digit_val c = Some d -> (d < 8)%Z -> is_octal c = true.
Proof.
  destruct c as [[] [] [] [] [] [] [] []]; vm_compute;
    intros H; inversion H; subst; intros Hlt; try reflexivity;
    discriminate Hlt.
Qed.

Lemma is_digit09_digit_val (c : ascii) :
  is_digit09 c = true ->
  strconv.digit_val c = Some (utf8.bz c - 48)%Z
  /\ (0 <= utf8.bz c - 48 < 10)%Z.
Proof.
  destruct c as [[] [] [] [] [] [] [] []]; try discriminate; intros _;
    (split; [reflexivity | vm_compute; split; [discriminate | reflexivity]]).
Qed.

(** [strconv.ParseUint(s, 8, 32)] accepts exactly the non-empty strings of
    octal digits that denote a value below 2^32, and returns that value. *)
Lemma ParseUint_octal (s : string) (v : Z) :
  strconv.ParseUint s 8 32 = inr v
  <-> s <> "" /\ str_forallb is_octal s = true /\ octal s = v
      /\ (0 <= v < 2 ^ 32)%Z.
Proof.
  unfold strconv.ParseUint.
  destruct (String.eqb_spec s "") as [E|Hne].
  { split; [discriminate | intros (H & _); contradiction]. }
  change (if (32 =? 0)%Z then strconv.IntSize else 32%Z) with 32%Z.
  split.
  - intros H.
    pose proof (ParseUint_loop_inr 8 _ _ is_octal digit_val_is_octal _ _ _ H)
      as Hoct.
    rewrite (ParseUint_loop_digits 8 (2 ^ 32 - 1) is_octal ltac:(lia)
               ltac:(unfold strconv.maxUint64; lia) is_octal_digit_val
               s Hoct 0%Z ltac:(lia)) in H.
    fold (octal s) in H.
    destruct (Z.leb_spec (octal s) (2 ^ 32 - 1)); [|discriminate].
    inversion H; subst v. repeat split; try assumption; try lia.
    unfold octal.
    apply (digits_value_ge 8 is_octal s ltac:(lia)); [|assumption|lia].
    intros c Hc. apply is_octal_digit_val in Hc. lia.
  - intros (_ & Hoct & Hv & Hr).
    rewrite (ParseUint_loop_digits 8 (2 ^ 32 - 1) is_octal ltac:(lia)
               ltac:(unfold strconv.maxUint64; lia) is_octal_digit_val
               s Hoct 0%Z ltac:(lia)).
    fold (octal s). rewrite Hv.
    destruct (Z.leb_spec v (2 ^ 32 - 1)); [reflexivity | lia].
Qed.

Lemma decimal_from_digits_value (ds : string) (n : Z) :
  decimal_from n ds = digits_value 10 n ds.
Proof.
  revert n. induction ds as [|c t IH]; intros n; simpl; [reflexivity|].
  apply IH.
Qed.

Lemma digits_value_lt (ds : string) :
  str_forallb is_digit09 ds = true ->
  forall n, (0 <= n)%Z ->
    (digits_value 10 n ds < (n + 1) * 10 ^ Z.of_nat (String.length ds))%Z.
Proof.
  induction ds as [|c t IH]; intros H n Hn.
  - cbn [digits_value String.length]. change (10 ^ Z.of_nat 0)%Z with 1%Z. lia.
  - cbn [digits_value String.length str_forallb] in *.
    apply andb_true_iff in H as [Hc Ht].
    apply is_digit09_digit_val in Hc as [_ Hr].
    specialize (IH Ht (n * 10 + (utf8.bz c - 48))%Z ltac:(lia)).
    rewrite Nat2Z.inj_succ, Z.pow_succ_r by lia.
    assert (0 < 10 ^ Z.of_nat (String.length t))%Z by (apply Z.pow_pos_nonneg; lia).
    nia.
Qed.

(** [strconv.Atoi] on a non-empty string of ASCII digits: the number it
    denotes when that fits 63 bits, a range error otherwise. *)
Lemma Atoi_decimal (ds : string) :
  ds <> "" ->
  str_forallb is_digit09 ds = true ->
  strconv.Atoi ds
  = if (decimal ds <? 2 ^ 63)%Z then inr (decimal ds)
    else inl strconv.ErrRange.
Proof.
  intros Hne Hd.
  destruct (Nat.lt_ge_cases (String.length ds) 19) as [Hlen|Hlen].
  - rewrite (Atoi_digits ds Hne Hd Hlen).
    pose proof (digits_value_lt ds Hd 0%Z ltac:(lia)) as Hlt.
    rewrite <- decimal_from_digits_value in Hlt. fold (decimal ds) in Hlt.
    assert ((0 + 1) * 10 ^ Z.of_nat (String.length ds) <= 10 ^ 18)%Z.
    { rewrite Z.mul_1_l. apply Z.pow_le_mono_r; lia. }
    destruct (Z.ltb_spec (decimal ds) (2 ^ 63)); [reflexivity | lia].
  - unfold strconv.Atoi.
    assert (E : ((0 <? Z.of_nat (String.length ds))%Z
                 && (Z.of_nat (String.length ds) <? 19)%Z) = false).
    { apply andb_false_iff. right. apply Z.ltb_ge. lia. }
    rewrite E. unfold strconv.ParseInt.
    destruct ds as [|c t]; [contradiction|].
    pose proof Hd as Hd'. cbn [str_forallb] in Hd'.
    apply andb_true_iff in Hd' as [Hc _].
    apply digit_byte_facts in Hc as (_ & _ & _ & _ & _ & _ & Hminus & Hplus).
    rewrite Hminus, Hplus. cbn [orb andb negb].
    unfold strconv.ParseUint.
    change (String.eqb (String c t) "") with false. cbv iota.
    change (if (0 =? 0)%Z then strconv.IntSize else 0%Z) with 64%Z.
    rewrite (ParseUint_loop_digits 10 (2 ^ 64 - 1) is_digit09 ltac:(lia)
               ltac:(unfold strconv.maxUint64; lia) is_digit09_digit_val
               (String c t) Hd 0%Z ltac:(lia)).
    rewrite <- decimal_from_digits_value. fold (decimal (String c t)).
    destruct (Z.leb_spec (decimal (String c t)) (2 ^ 64 - 1)).
    + change (2 ^ (64 - 1))%Z with (2 ^ 63)%Z.
      destruct (Z.leb_spec (2 ^ 63) (decimal (String c t)));
        destruct (Z.ltb_spec (decimal (String c t)) (2 ^ 63));
        try lia; reflexivity.
    + destruct (Z.ltb_spec (decimal (String c t)) (2 ^ 63)); [lia|].
      reflexivity.
Qed.

(** ** The rate parser, rune by rune *)

Lemma trim_left_filter (rs : list utf8.rune) :
  filter nonspace (trim_left rs) = filter nonspace rs.
Proof.
  induction rs as [|r rs IH]; [reflexivity|].
  cbn [trim_left filter]. unfold nonspace at 2.
  destruct (unicode.IsSpace r) eqn:E; cbn [negb]; [exact IH|].
  cbn [filter]. unfold nonspace at 1. rewrite E. reflexivity.
Qed.

Lemma filter_rev {A} (f : A -> bool) (l : list A) :
  filter f (rev l) = rev (filter f l).
Proof.
  induction l as [|a l IH]; simpl; [reflexivity|].
  rewrite filter_app, IH. simpl. destruct (f a); simpl;
    [reflexivity | apply app_nil_r].
Qed.

Lemma trim_space_filter (rs : list utf8.rune) :
  filter nonspace (trim_space rs) = filter nonspace rs.
Proof.
  unfold trim_space.
  rewrite filter_rev, trim_left_filter, filter_rev, rev_involutive.
  apply trim_left_filter.
Qed.

Lemma append_assoc (a b c : string) : (a ++ b) ++ c = a ++ (b ++ c).
Proof.
  induction a as [|x a IH]; simpl; [reflexivity|]. rewrite IH. reflexivity.
Qed.

Lemma append_empty_r (a : string) : a ++ "" = a.
Proof.
  induction a as [|x a IH]; simpl; [reflexivity|]. rewrite IH. reflexivity.
Qed.

Section Runes.

Variable Nd : utf8.rune -> bool.

(** No rune is both a decimal digit and white space. *)
Hypothesis Nd_not_space : forall r, Nd r = true -> unicode.IsSpace r = false.

Lemma IsDigit_not_space (r : utf8.rune) :
  unicode.IsDigit Nd r = true -> unicode.IsSpace r = false.
Proof.
  unfold unicode.IsDigit, unicode.IsSpace, unicode.MaxLatin1.
  destruct ((0 <=? r)%Z && (r <=? 255)%Z) eqn:E.
  - intros H. apply andb_true_iff in H as [H1 H2].
    apply Z.leb_le in H1, H2.
    repeat match goal with
           | |- context [(?a <=? ?b)%Z] => destruct (Z.leb_spec a b)
           | |- context [(?a =? ?b)%Z] => destruct (Z.eqb_spec a b)
           end; try lia; reflexivity.
  - intros H. generalize (Nd_not_space r H).
    unfold unicode.IsSpace, unicode.MaxLatin1. rewrite E. auto.
Qed.

Lemma loop_filter (rs : list utf8.rune) :
  forall acc m,
    parseBandwith_loop Nd rs acc m
    = parseBandwith_loop Nd (filter nonspace rs) acc m.
Proof.
  induction rs as [|r rs IH]; intros acc m; [reflexivity|].
  cbn [filter]. unfold nonspace at 1.
  destruct (unicode.IsSpace r) eqn:Es; cbn [negb].
  - cbn [parseBandwith_loop]. rewrite Es.
    destruct (unicode.IsDigit Nd r) eqn:Ed.
    + apply IsDigit_not_space in Ed. congruence.
    + apply IH.
  - cbn [parseBandwith_loop]. rewrite Es, !IH. reflexivity.
Qed.

End Runes.

Section Loop.

Variable Nd : utf8.rune -> bool.

Lemma loop_refused (rs : list utf8.rune) :
  existsb (refused Nd) rs = true ->
  forall acc m, parseBandwith_loop Nd rs acc m = None.
Proof.
  induction rs as [|r rs IH]; [discriminate|].
  cbn [existsb parseBandwith_loop]. intros H acc m.
  unfold refused, rune_multiplier in H.
  destruct (unicode.IsDigit Nd r); [apply IH; exact H|].
  destruct (unicode.IsSpace r); [apply IH; exact H|].
  destruct (rune_among r ["k"; "K"]%char); [apply IH; exact H|].
  destruct (rune_among r ["m"; "M"]%char); [apply IH; exact H|].
  destruct (rune_among r ["g"; "G"]%char); [apply IH; exact H|].
  reflexivity.
Qed.

Lemma loop_normal_form (rs : list utf8.rune) :
  existsb (refused Nd) rs = false ->
  forall acc m,
    parseBandwith_loop Nd rs acc m
    = Some (acc ++ digits_of Nd rs, last_multiplier Nd rs m).
Proof.
  induction rs as [|r rs IH]; intros H acc m.
  - cbn. rewrite append_empty_r. reflexivity.
  - cbn [existsb] in H. apply orb_false_iff in H as [Hr Hrs].
    cbn [parseBandwith_loop digits_of last_multiplier].
    unfold refused, rune_multiplier in *.
    destruct (unicode.IsDigit Nd r); cbn [orb].
    { rewrite (IH Hrs), append_assoc. reflexivity. }
    destruct (unicode.IsSpace r); [apply (IH Hrs)|].
    destruct (rune_among r ["k"; "K"]%char); [apply (IH Hrs)|].
    destruct (rune_among r ["m"; "M"]%char); [apply (IH Hrs)|].
    destruct (rune_among r ["g"; "G"]%char); [apply (IH Hrs)|].
    discriminate.
Qed.

End Loop.

Lemma trim_left_nonspace (rs : list utf8.rune) :
  forallb nonspace rs = true -> trim_left rs = rs.
Proof.
  destruct rs as [|r rs]; [reflexivity|]. cbn [forallb trim_left].
  intros H. apply andb_true_iff in H as [Hr _].
  unfold nonspace in Hr. apply negb_true_iff in Hr. rewrite Hr. reflexivity.
Qed.

Lemma forallb_rev {A} (f : A -> bool) (l : list A) :
  forallb f (rev l) = forallb f l.
Proof.
  induction l as [|a l IH]; [reflexivity|]. cbn [rev forallb].
  rewrite forallb_app, IH. cbn [forallb]. rewrite andb_true_r.
  apply andb_comm.
Qed.

Lemma trim_space_nonspace (rs : list utf8.rune) :
  forallb nonspace rs = true -> trim_space rs = rs.
Proof.
  intros H. unfold trim_space. rewrite (trim_left_nonspace rs H).
  rewrite trim_left_nonspace by (rewrite forallb_rev; exact H).
  apply rev_involutive.
Qed.

Lemma trim_left_In (r : utf8.rune) (rs : list utf8.rune) :
  In r (trim_left rs) -> In r rs.
Proof.
  induction rs as [|x rs IH]; [auto|]. cbn [trim_left].
  destruct (unicode.IsSpace x); [right; auto | auto].
Qed.

Lemma trim_space_In (r : utf8.rune) (rs : list utf8.rune) :
  In r (trim_space rs) -> In r rs.
Proof.
  unfold trim_space. intros H.
  apply In_rev in H. apply trim_left_In in H. apply In_rev in H.
  apply trim_left_In in H. exact H.
Qed.

Lemma trim_space_keeps (r : utf8.rune) (rs : list utf8.rune) :
  In r rs -> unicode.IsSpace r = false -> In r (trim_space rs).
Proof.
  intros Hin Hs.
  assert (H : In r (filter nonspace (trim_space rs))).
  { rewrite trim_space_filter. apply filter_In. split; [exact Hin|].
    unfold nonspace. rewrite Hs. reflexivity. }
  apply filter_In in H. tauto.
Qed.

Lemma existsb_In {A} (f : A -> bool) (l : list A) (a : A) :
  In a l -> f a = true -> existsb f l = true.
Proof.
  intros Hin Hf. apply existsb_exists. exists a. auto.
Qed.

Section RateProperties.

Variable Nd : utf8.rune -> bool.

Lemma loop_refused_trimmed (s : string) :
  existsb (refused Nd) (utf8.runes s) = true ->
  forall acc m,
    parseBandwith_loop Nd (trim_space (utf8.runes s)) acc m = None.
Proof.
  intros H. apply existsb_exists in H as (r & Hin & Hr).
  assert (Hs : unicode.IsSpace r = false).
  { unfold refused in Hr. destruct (unicode.IsSpace r); [|reflexivity].
    rewrite andb_false_r in Hr. discriminate. }
  apply loop_refused. apply (existsb_In _ _ r); [|exact Hr].
  apply trim_space_keeps; assumption.
Qed.

Lemma parseBandwith_normal_form (s : string) :
  s <> "" ->
  existsb (refused Nd) (utf8.runes s) = false ->
  parseBandwith Nd s
  = rate_of (digits_of Nd (trim_space (utf8.runes s)))
            (last_multiplier Nd (trim_space (utf8.runes s)) 1).
Proof.
  intros Hne H. unfold parseBandwith.
  destruct (String.eqb_spec s "") as [E|_]; [contradiction|].
  rewrite loop_normal_form; [reflexivity|].
  destruct (existsb (refused Nd) (trim_space (utf8.runes s))) eqn:E;
    [|reflexivity].
  apply existsb_exists in E as (r & Hin & Hr).
  apply trim_space_In in Hin.
  rewrite (existsb_In _ _ r Hin Hr) in H. discriminate.
Qed.

Lemma digits_of_app (l1 l2 : list utf8.rune) :
  digits_of Nd (l1 ++ l2) = digits_of Nd l1 ++ digits_of Nd l2.
Proof.
  induction l1 as [|r l1 IH]; [reflexivity|]. cbn [app digits_of].
  destruct (unicode.IsDigit Nd r); [|exact IH].
  rewrite IH, append_assoc. reflexivity.
Qed.

Lemma last_multiplier_app (l1 l2 : list utf8.rune) (m : Z) :
  last_multiplier Nd (l1 ++ l2) m
  = last_multiplier Nd l2 (last_multiplier Nd l1 m).
Proof.
  revert m. induction l1 as [|r l1 IH]; intros m; [reflexivity|].
  cbn [app last_multiplier].
  destruct (unicode.IsDigit Nd r || unicode.IsSpace r); [apply IH|].
  destruct (rune_multiplier r); apply IH.
Qed.

Lemma digits_of_digits (ds : string) :
  str_forallb is_digit09 ds = true ->
  digits_of Nd (map utf8.bz (str_bytes ds)) = ds
  /\ (forall m, last_multiplier Nd (map utf8.bz (str_bytes ds)) m = m)
  /\ forallb nonspace (map utf8.bz (str_bytes ds)) = true
  /\ existsb (refused Nd) (map utf8.bz (str_bytes ds)) = false.
Proof.
  induction ds as [|c t IH]; [repeat split|].
  cbn [str_forallb str_bytes map digits_of last_multiplier forallb existsb].
  intros H. apply andb_true_iff in H as [Hc Ht].
  destruct (IH Ht) as (I1 & I2 & I3 & I4).
  apply digit_byte_facts in Hc as (_ & Hd & Hs & He & _).
  rewrite I1, I3, I4. unfold refused, nonspace. rewrite (Hd Nd), Hs, He.
  repeat split; auto.
Qed.

Lemma digits_of_unit (u : ascii) (m : Z) :
  unit_multiplier u = Some m ->
  digits_of Nd [utf8.bz u] = ""
  /\ (forall m0, last_multiplier Nd [utf8.bz u] m0 = m)
  /\ nonspace (utf8.bz u) = true
  /\ refused Nd (utf8.bz u) = false.
Proof.
  destruct u as [[] [] [] [] [] [] [] []]; try discriminate;
    intros H; inversion H; repeat split.
Qed.

Lemma rate_of_digits (ds : string) (m : Z) :
  str_forallb is_digit09 ds = true ->
  rate_of ds m
  = if String.eqb ds "" then (0%Z, false)
    else if (decimal ds <? 2 ^ 63)%Z then (wrap_int (decimal ds * m), true)
    else (0%Z, false).
Proof.
  intros Hd. unfold rate_of.
  destruct (String.eqb_spec ds "") as [E|Hne]; [subst ds; reflexivity|].
  rewrite (Atoi_decimal ds Hne Hd).
  destruct (decimal ds <? 2 ^ 63)%Z; reflexivity.
Qed.

Lemma parseBandwith_ascii (s : string) :
  s <> "" ->
  str_forallb (fun c => (byte_val c <? 128)%N) s = true ->
  forallb nonspace (map utf8.bz (str_bytes s)) = true ->
  existsb (refused Nd) (map utf8.bz (str_bytes s)) = false ->
  parseBandwith Nd s
  = rate_of (digits_of Nd (map utf8.bz (str_bytes s)))
            (last_multiplier Nd (map utf8.bz (str_bytes s)) 1).
Proof.
  intros Hne Ha Hns Hr.
  rewrite parseBandwith_normal_form by
    (try assumption; rewrite (runes_ascii s Ha); exact Hr).
  rewrite (runes_ascii s Ha), (trim_space_nonspace _ Hns). reflexivity.
Qed.

(** X1. A rate written with ASCII digits only is the number it denotes,
    as long as that fits an [int]; from 2^63 on it is refused. *)
Theorem parseBandwith_numeric (ds : string) :
  ds <> "" ->
  str_forallb is_digit09 ds = true ->
  parseBandwith Nd ds
  = if (decimal ds <? 2 ^ 63)%Z then (decimal ds, true) else (0%Z, false).
Proof.
  intros Hne Hd.
  destruct (digits_of_digits ds Hd) as (D1 & D2 & D3 & D4).
  rewrite parseBandwith_ascii; try assumption.
  - rewrite D1, D2, (rate_of_digits ds 1 Hd).
    destruct (String.eqb_spec ds ""); [contradiction|].
    destruct (Z.ltb_spec (decimal ds) (2 ^ 63)); [|reflexivity].
    f_equal. unfold wrap_int.
    pose proof (digits_value_ge 10 is_digit09 ds ltac:(lia)
                  ltac:(intros c Hc; apply is_digit09_digit_val in Hc; lia)
                  Hd 0%Z ltac:(lia)) as Hge.
    rewrite <- decimal_from_digits_value in Hge. fold (decimal ds) in Hge.
    rewrite Z.mul_1_r, Z.mod_small; lia.
  - revert Hd. apply str_forallb_impl. intros c Hc.
    apply digit_byte_facts in Hc. tauto.
Qed.

(** X2. A rune that is neither a digit, nor white space, nor one of the
    letters k, m, g in either case makes the rate invalid, wherever it
    stands and whatever else the string holds. *)
Theorem parseBandwith_refused (s : string) :
  existsb (refused Nd) (utf8.runes s) = true ->
  parseBandwith Nd s = (0%Z, false).
Proof.
  intros H. unfold parseBandwith.
  destruct (String.eqb_spec s "") as [E|_]; [subst s; discriminate|].
  rewrite (loop_refused_trimmed s H). reflexivity.
Qed.

(** X3. A rate needs a digit: a string that is not empty and holds no
    digit is refused, be it blank, a bare unit letter or anything else. *)
Theorem parseBandwith_no_digit (s : string) :
  s <> "" ->
  existsb (unicode.IsDigit Nd) (utf8.runes s) = false ->
  parseBandwith Nd s = (0%Z, false).
Proof.
  intros Hne Hd.
  destruct (existsb (refused Nd) (utf8.runes s)) eqn:Hr.
  - unfold parseBandwith.
    destruct (String.eqb_spec s "") as [E|_]; [contradiction|].
    rewrite (loop_refused_trimmed s Hr). reflexivity.
  - rewrite (parseBandwith_normal_form s Hne Hr).
    assert (E : digits_of Nd (trim_space (utf8.runes s)) = "").
    { assert (Hall : forall r, In r (trim_space (utf8.runes s)) ->
                               unicode.IsDigit Nd r = false).
      { intros r Hin. apply trim_space_In in Hin.
        destruct (unicode.IsDigit Nd r) eqn:E; [|reflexivity].
        rewrite (existsb_In _ _ r Hin E) in Hd. discriminate. }
      induction (trim_space (utf8.runes s)) as [|r l IH]; [reflexivity|].
      cbn [digits_of]. rewrite (Hall r (or_introl eq_refl)).
      apply IH. intros r' Hr'. apply Hall. right. exact Hr'. }
    rewrite E. reflexivity.
Qed.

(** X4. A unit letter may stand anywhere among the digits, and of two
    unit letters the last one counts: the digits on both sides are read as
    one number, however long, and scaled by that unit. *)
Theorem parseBandwith_unit_position (a b : string) (u v : ascii) (m k : Z) :
  str_forallb is_digit09 a = true ->
  str_forallb is_digit09 b = true ->
  unit_multiplier u = Some m ->
  unit_multiplier v = Some k ->
  let rate (x : Z) :=
    if String.eqb (a ++ b) "" then (0%Z, false)
    else if (decimal (a ++ b) <? 2 ^ 63)%Z
         then (wrap_int (decimal (a ++ b) * x), true)
         else (0%Z, false) in
  parseBandwith Nd (a ++ String u b) = rate m
  /\ parseBandwith Nd (a ++ String u (b ++ String v "")) = rate k.
Proof.
  intros Ha Hb Hu Hv rate.
  destruct (digits_of_digits a Ha) as (A1 & A2 & A3 & A4).
  destruct (digits_of_digits b Hb) as (B1 & B2 & B3 & B4).
  destruct (digits_of_unit u m Hu) as (U1 & U2 & U3 & U4).
  destruct (digits_of_unit v k Hv) as (V1 & V2 & V3 & V4).
  assert (Hab : str_forallb is_digit09 (a ++ b) = true)
    by (rewrite str_forallb_app, Ha, Hb; reflexivity).
  assert (Hascii : forall x, str_forallb is_digit09 x = true ->
            str_forallb (fun c => (byte_val c <? 128)%N) x = true).
  { intros x. apply str_forallb_impl. intros c Hc.
    apply digit_byte_facts in Hc. tauto. }
  apply unit_byte_facts in Hu as (Hu8 & _).
  apply unit_byte_facts in Hv as (Hv8 & _).
  unfold utf8.rune in *.
  subst rate. cbv beta zeta. rewrite <- (rate_of_digits (a ++ b) m Hab).
  rewrite <- (rate_of_digits (a ++ b) k Hab).
  split.
  - rewrite parseBandwith_ascii.
    + change (String u b) with (String u "" ++ b).
      rewrite !str_bytes_app, !map_app, !digits_of_app,
        !last_multiplier_app.
      cbn [str_bytes map]. rewrite A1, B1, U1, A2, U2, B2. reflexivity.
    + destruct a; discriminate.
    + rewrite str_forallb_app. cbn [str_forallb].
      rewrite (Hascii a Ha), (Hascii b Hb), Hu8. reflexivity.
    + change (String u b) with (String u "" ++ b).
      rewrite !str_bytes_app, !map_app, !forallb_app.
      cbn [str_bytes map forallb]. rewrite A3, B3, U3. reflexivity.
    + change (String u b) with (String u "" ++ b).
      rewrite !str_bytes_app, !map_app, !existsb_app.
      cbn [str_bytes map existsb]. rewrite A4, B4, U4. reflexivity.
  - change (String u (b ++ String v "")) with (String u "" ++ b ++ String v "").
    rewrite parseBandwith_ascii.
    + rewrite !str_bytes_app, !map_app, !digits_of_app,
        !last_multiplier_app.
      cbn [str_bytes map]. rewrite A1, B1, U1, V1, A2, U2, B2, V2.
      rewrite append_empty_r. reflexivity.
    + destruct a; discriminate.
    + rewrite !str_forallb_app. cbn [str_forallb].
      rewrite (Hascii a Ha), (Hascii b Hb), Hu8, Hv8. reflexivity.
    + rewrite !str_bytes_app, !map_app, !forallb_app.
      cbn [str_bytes map forallb]. rewrite A3, B3, U3, V3. reflexivity.
    + rewrite !str_bytes_app, !map_app, !existsb_app.
      cbn [str_bytes map existsb]. rewrite A4, B4, U4, V4. reflexivity.
Qed.

End RateProperties.

(** X5. White space counts nowhere: two non-empty rate strings that
    differ in white space only are parsed alike. *)
Theorem parseBandwith_white_space (Nd : utf8.rune -> bool) (s s' : string) :
  (forall r, Nd r = true -> unicode.IsSpace r = false) ->
  s <> "" -> s' <> "" ->
  filter nonspace (utf8.runes s) = filter nonspace (utf8.runes s') ->
  parseBandwith Nd s = parseBandwith Nd s'.
Proof.
  intros HNd Hs Hs' H. unfold parseBandwith.
  destruct (String.eqb_spec s ""); [contradiction|].
  destruct (String.eqb_spec s' ""); [contradiction|].
  rewrite (loop_filter Nd HNd (trim_space (utf8.runes s))).
  rewrite (loop_filter Nd HNd (trim_space (utf8.runes s'))).
  rewrite !trim_space_filter, H. reflexivity.
Qed.

(** ** Digits above ASCII *)

Lemma high_byte_facts (c : ascii) :
  high_byte c = true ->
  (9 <? (utf8.bz c - 48) mod 256)%Z = true
  /\ strconv.digit_val c = None
  /\ Ascii.eqb c "-" = false /\ Ascii.eqb c "+" = false.
Proof.
  destruct c as [[] [] [] [] [] [] [] []]; try discriminate; intros _;
    repeat split.
Qed.

Lemma Atoi_fast_high (s : string) :
  str_existsb high_byte s = true ->
  forall n, exists e, strconv.Atoi_fast n s = inl e.
Proof.
  induction s as [|c t IH]; [discriminate|].
  cbn [str_existsb strconv.Atoi_fast]. intros H n.
  destruct (9 <? (utf8.bz c - 48) mod 256)%Z eqn:E9; [eauto|].
  destruct (high_byte c) eqn:Hc.
  - apply high_byte_facts in Hc as (Hc & _). congruence.
  - apply IH. exact H.
Qed.

Lemma ParseUint_loop_high (base cutoff maxVal : Z) (s : string) :
  str_existsb high_byte s = true ->
  forall n, exists e, strconv.ParseUint_loop base cutoff maxVal n s = inl e.
Proof.
  induction s as [|c t IH]; [discriminate|].
  cbn [str_existsb strconv.ParseUint_loop]. intros H n.
  destruct (high_byte c) eqn:Hc.
  - apply high_byte_facts in Hc as (_ & Hc & _). rewrite Hc. eauto.
  - destruct (strconv.digit_val c); [|eauto].
    destruct (base <=? z)%Z; [eauto|].
    destruct (cutoff <=? n)%Z; [eauto|].
    match goal with |- exists e, (if ?b then _ else _) = _ => destruct b end;
      [eauto|].
    apply IH. exact H.
Qed.

Lemma Atoi_high (s : string) :
  str_existsb high_byte s = true -> exists e, strconv.Atoi s = inl e.
Proof.
  intros H. unfold strconv.Atoi.
  destruct s as [|c t]; [discriminate|].
  assert (Hs1 : forall b : bool,
             (b = true -> high_byte c = false) ->
             str_existsb high_byte (if b then t else String c t) = true).
  { intros [] Hb; [|exact H]. cbn [str_existsb] in H.
    rewrite (Hb eq_refl) in H. exact H. }
  assert (Hsign : Ascii.eqb c "-" || Ascii.eqb c "+" = true ->
                  high_byte c = false).
  { intros Hb. destruct (high_byte c) eqn:Hc; [|reflexivity].
    apply high_byte_facts in Hc as (_ & _ & H1 & H2).
    rewrite H1, H2 in Hb. discriminate. }
  match goal with |- exists e, (if ?b then _ else _) = _ => destruct b end.
  - match goal with |- exists e, (if ?b then _ else _) = _ => destruct b end;
      [eauto|].
    destruct (Atoi_fast_high _ (Hs1 _ Hsign) 0%Z) as [e E]. rewrite E. eauto.
  - unfold strconv.ParseInt, strconv.ParseUint.
    assert (Hsign' : Ascii.eqb c "+" || Ascii.eqb c "-" = true ->
                     high_byte c = false).
    { intros Hb. apply Hsign. rewrite orb_comm. exact Hb. }
    pose proof (Hs1 _ Hsign') as Hh.
    destruct (if Ascii.eqb c "+" || Ascii.eqb c "-" then t else String c t)
      as [|c' t'] eqn:Es1; [discriminate|].
    change (String.eqb (String c' t') "") with false. cbv iota.
    destruct (ParseUint_loop_high 10 (strconv.maxUint64 / 10 + 1)
                (2 ^ (if (0 =? 0)%Z then strconv.IntSize else 0) - 1)
                _ Hh 0%Z) as [e E].
    rewrite E. eauto.
Qed.

Lemma lor_lead (a x : Z) :
  (a = 192 \/ a = 224 \/ a = 240)%Z ->
  (0 <= x < 32)%Z ->
  high_byte (utf8.byte_of_Z (Z.lor a x)) = true.
Proof.
  intros Ha Hx.
  replace x with (Z.of_nat (Z.to_nat x)) by lia.
  assert (Hn : (Z.to_nat x < 32)%nat) by lia.
  generalize dependent (Z.to_nat x). clear Hx x. intros n Hn.
  do 32 (destruct n as [|n];
         [destruct Ha as [->|[->| ->]]; reflexivity|]).
  lia.
Qed.

Lemma EncodeRune_high (r : utf8.rune) :
  (127 < r)%Z -> str_existsb high_byte (utf8.EncodeRune r) = true.
Proof.
  intros Hr. unfold utf8.EncodeRune.
  destruct ((r <? 0)%Z || (1114111 <? r)%Z
            || (55296 <=? r)%Z && (r <=? 57343)%Z) eqn:Einv;
    [reflexivity|].
  apply orb_false_iff in Einv as [Einv _].
  apply orb_false_iff in Einv as [_ Emax]. apply Z.ltb_ge in Emax.
  destruct (Z.leb_spec r 127); [lia|].
  assert (Hshift : forall k, (0 <= k)%Z -> Z.shiftr r k = (r / 2 ^ k)%Z)
    by (intros k Hk; apply Z.shiftr_div_pow2; exact Hk).
  destruct (Z.leb_spec r 2047).
  { cbn [str_existsb]. rewrite lor_lead; [reflexivity | auto |].
    rewrite Hshift by lia. split.
    - apply Z.div_pos; lia.
    - apply Z.div_lt_upper_bound; lia. }
  destruct (Z.leb_spec r 65535).
  { cbn [str_existsb]. rewrite lor_lead; [reflexivity | auto |].
    rewrite Hshift by lia. split.
    - apply Z.div_pos; lia.
    - apply Z.div_lt_upper_bound; lia. }
  cbn [str_existsb]. rewrite lor_lead; [reflexivity | auto |].
  rewrite Hshift by lia. split.
  - apply Z.div_pos; lia.
  - apply Z.div_lt_upper_bound; lia.
Qed.

Lemma str_existsb_app (p : ascii -> bool) (a b : string) :
  str_existsb p (a ++ b) = str_existsb p a || str_existsb p b.
Proof.
  induction a as [|c t IH]; [reflexivity|]. cbn [String.append str_existsb].
  rewrite IH. apply orb_assoc.
Qed.

(** X6. A decimal digit of another script is taken for a digit by the
    scan and refused by [strconv.Atoi]: whatever the table of digits above
    Latin-1, a rate that holds one is invalid. *)
Theorem parseBandwith_digit_above_Latin1 (Nd : utf8.rune -> bool)
    (s : string) (r : utf8.rune) :
  In r (utf8.runes s) ->
  (255 < r)%Z ->
  Nd r = true ->
  unicode.IsSpace r = false ->
  parseBandwith Nd s = (0%Z, false).
Proof.
  intros Hin Hr HNd Hsp.
  assert (Hne : s <> "") by (intros ->; exact Hin).
  assert (Hd : unicode.IsDigit Nd r = true).
  { unfold unicode.IsDigit, unicode.MaxLatin1.
    destruct (Z.leb_spec r 255); [lia|]. rewrite andb_false_r. exact HNd. }
  destruct (existsb (refused Nd) (utf8.runes s)) eqn:Eref.
  - unfold parseBandwith.
    destruct (String.eqb_spec s ""); [contradiction|].
    rewrite (loop_refused_trimmed Nd s Eref). reflexivity.
  - rewrite (parseBandwith_normal_form Nd s Hne Eref).
    pose proof (trim_space_keeps r _ Hin Hsp) as Hin'.
    assert (Hhigh : str_existsb high_byte
                      (digits_of Nd (trim_space (utf8.runes s))) = true).
    { induction (trim_space (utf8.runes s)) as [|x l IH]; [contradiction|].
      cbn [digits_of]. destruct Hin' as [->|Hin'].
      - rewrite Hd, str_existsb_app, EncodeRune_high by lia. reflexivity.
      - destruct (unicode.IsDigit Nd x); [|auto].
        rewrite str_existsb_app, (IH Hin'). apply orb_true_r. }
    unfold rate_of. destruct (Atoi_high _ Hhigh) as [e E]. rewrite E.
    reflexivity.
Qed.

(** ** Resolution, check by check *)

Lemma perm_ok_ParseUint (s : string) :
  perm_ok s = true -> strconv.ParseUint s 8 32 = inr (octal s).
Proof.
  unfold perm_ok. intros H. apply andb_true_iff in H as [H H3].
  apply andb_true_iff in H as [H1 H2]. apply Z.ltb_lt in H3.
  apply ParseUint_octal. repeat split; auto.
  - intros ->. discriminate.
  - apply (digits_value_ge 8 is_octal s ltac:(lia)); [|assumption|lia].
    intros c Hc. apply is_octal_digit_val in Hc. lia.
Qed.

Lemma perm_not_ok_ParseUint (s : string) :
  perm_ok s = false -> exists e, strconv.ParseUint s 8 32 = inl e.
Proof.
  intros H. destruct (strconv.ParseUint s 8 32) as [e|v] eqn:E; [eauto|].
  apply ParseUint_octal in E as (Hne & Hoct & Hv & Hr).
  unfold perm_ok in H. rewrite Hoct, Hv in H.
  destruct (String.eqb_spec s ""); [contradiction|].
  destruct (Z.ltb_spec v (2 ^ 32)); [discriminate | lia].
Qed.

Lemma octal_range (s : string) :
  perm_ok s = true -> (0 <= octal s < 2 ^ 32)%Z.
Proof.
  intros H. apply perm_ok_ParseUint in H.
  apply ParseUint_octal in H. tauto.
Qed.

Lemma switch_OnFail_ok (rawCli : raw.args) (env : Env) :
  on_fail_ok rawCli = true ->
  exists a, switch_OnFail (raw.OnFail rawCli) env = (Ok a, env).
Proof.
  unfold on_fail_ok, switch_OnFail, ret. cbn [existsb]. intros H.
  destruct (String.eqb (raw.OnFail rawCli) "fatal"); [eauto|].
  destruct (String.eqb (raw.OnFail rawCli) "skip"); [eauto|].
  destruct (String.eqb (raw.OnFail rawCli) "skipmissing"); [eauto|].
  discriminate H.
Qed.

Lemma switch_OnFail_action (rawCli : raw.args) (env : Env) :
  on_fail_ok rawCli = true ->
  switch_OnFail (raw.OnFail rawCli) env
  = (Ok (on_fail_action (raw.OnFail rawCli)), env).
Proof.
  unfold on_fail_ok, switch_OnFail, on_fail_action, ret. cbn [existsb].
  intros H.
  destruct (String.eqb_spec (raw.OnFail rawCli) "fatal") as [E|_].
  { rewrite E. reflexivity. }
  destruct (String.eqb (raw.OnFail rawCli) "skip"); [reflexivity|].
  destruct (String.eqb (raw.OnFail rawCli) "skipmissing"); [reflexivity|].
  discriminate H.
Qed.

Section Checks.

Variable Nd : utf8.rune -> bool.

(** The first three checks passed: what is left of the run. *)
Lemma run_after_rate (rawCli : raw.args) (env : Env) :
  acl_ok rawCli = true ->
  on_fail_ok rawCli = true ->
  rate_ok Nd rawCli = true ->
  exists onFail rate,
    switch_OnFail (raw.OnFail rawCli) env = (Ok onFail, env)
    /\ parseBandwith Nd (raw.RateLimitBandwidth rawCli) = (rate, true)
    /\ GetCliArgs Nd rawCli env
       = (source <- lift_parseConn (raw.Source rawCli) ;;
          target <- lift_parseConn (raw.Target rawCli) ;;
          tty <- isatty_stdout ;;
          when (raw.ShowProgress rawCli && negb tty) (p_Fail msg_tty) ;;;
          filePerm <- parse_perm (raw.FSFilePerm rawCli) msg_file_perm ;;
          dirPerm <- parse_perm (raw.FSDirPerm rawCli) msg_dir_perm ;;
          when (raw.DisableHTTP2 rawCli)
               (g <- os_Getenv_GODEBUG ;;
                os_Setenv_GODEBUG (g ++ "http2client=0")) ;;;
          when (raw.FilterModified rawCli && raw.FSDisableXattr rawCli)
               (p_Fail msg_xattr) ;;;
          ret (mkArgsParsed rawCli source target
                 (wrap_int (wrap_int (raw.S3RetryInterval rawCli)
                            * time_Second))
                 onFail filePerm dirPerm rate)) env.
Proof.
  intros Hacl Hof Hrate.
  destruct (switch_OnFail_ok rawCli env Hof) as [a Ea].
  unfold rate_ok in Hrate.
  destruct (parseBandwith Nd (raw.RateLimitBandwidth rawCli)) as [rate ok]
    eqn:Er.
  cbn [snd] in Hrate. subst ok.
  exists a, rate. split; [exact Ea|]. split; [reflexivity|].
  unfold GetCliArgs. unfold bind at 1, check_S3Acl.
  unfold acl_ok in Hacl. rewrite Hacl. unfold ret at 1.
  unfold bind at 1. rewrite Ea.
  unfold bind at 1. rewrite Er. unfold ret at 1. reflexivity.
Qed.

Lemma run_decisions (rawCli : raw.args) (env : Env) :
  GetCliArgs Nd rawCli env = decisions Nd rawCli env.
Proof.
  unfold decisions.
  destruct (acl_ok rawCli) eqn:Ha; cbn [negb].
  2:{ unfold GetCliArgs. unfold bind at 1, check_S3Acl.
      unfold acl_ok in Ha. rewrite Ha. reflexivity. }
  destruct (on_fail_ok rawCli) eqn:Ho; cbn [negb].
  2:{ unfold GetCliArgs. unfold bind at 1, check_S3Acl.
      unfold acl_ok in Ha. rewrite Ha. unfold ret at 1.
      unfold bind at 1, switch_OnFail.
      unfold on_fail_ok in Ho. cbn [existsb] in Ho.
      destruct (String.eqb (raw.OnFail rawCli) "fatal"); [discriminate|].
      destruct (String.eqb (raw.OnFail rawCli) "skip"); [discriminate|].
      destruct (String.eqb (raw.OnFail rawCli) "skipmissing");
        [discriminate|].
      reflexivity. }
  destruct (rate_ok Nd rawCli) eqn:Hr; cbn [negb].
  2:{ unfold GetCliArgs. unfold bind at 1, check_S3Acl.
      unfold acl_ok in Ha. rewrite Ha. unfold ret at 1.
      unfold bind at 1. rewrite (switch_OnFail_action rawCli env Ho).
      unfold bind at 1. unfold rate_ok in Hr.
      destruct (parseBandwith Nd (raw.RateLimitBandwidth rawCli))
        as [rate ok].
      cbn [snd] in Hr. subst ok. reflexivity. }
  destruct (run_after_rate rawCli env Ha Ho Hr)
    as (a & rate & Ea & Er & ->).
  rewrite (switch_OnFail_action rawCli env Ho) in Ea.
  inversion Ea; subst a. rewrite Er. cbn [fst].
  unfold bind, lift_parseConn, parse_perm, when, isatty_stdout, ret,
    p_Fail, return_err, os_Getenv_GODEBUG, os_Setenv_GODEBUG.
  destruct (parseConn (raw.Source rawCli)) as [e1|source]; [reflexivity|].
  destruct (parseConn (raw.Target rawCli)) as [e2|target]; [reflexivity|].
  destruct (raw.ShowProgress rawCli && negb (stdoutIsTerminal env));
    [reflexivity|].
  destruct (perm_ok (raw.FSFilePerm rawCli)) eqn:Hf; cbn [negb].
  2:{ destruct (perm_not_ok_ParseUint _ Hf) as [e E]. rewrite E.
      reflexivity. }
  rewrite (perm_ok_ParseUint _ Hf).
  destruct (perm_ok (raw.FSDirPerm rawCli)) eqn:Hd; cbn [negb].
  2:{ destruct (perm_not_ok_ParseUint _ Hd) as [e E]. rewrite E.
      reflexivity. }
  rewrite (perm_ok_ParseUint _ Hd).
  rewrite !Z.mod_small by (apply octal_range; assumption).
  unfold http2_disabled.
  destruct (raw.DisableHTTP2 rawCli);
    destruct (raw.FilterModified rawCli && raw.FSDisableXattr rawCli);
    reflexivity.
Qed.

(** X7. The two enumerated options are checked first, the ACL before the
    on-failure action: an ACL outside the list ends the run with the ACL
    message whatever the other options hold, and with an ACL of the list
    an unknown on-failure action ends it with the on-failure message.
    The environment is untouched. *)
Theorem enumerated_options_first (rawCli : raw.args) (env : Env) :
  (acl_ok rawCli = false ->
   GetCliArgs Nd rawCli env = (Fail msg_acl, env))
  /\ (acl_ok rawCli = true -> on_fail_ok rawCli = false ->
      GetCliArgs Nd rawCli env = (Fail msg_on_fail, env)).
Proof.
  rewrite run_decisions. unfold decisions. split.
  - intros ->. reflexivity.
  - intros -> ->. reflexivity.
Qed.

(** X8. With both enumerated options valid, a rate that [parseBandwith]
    refuses ends the run with the bandwidth message, before any endpoint
    is looked at. *)
Theorem invalid_bandwidth_fails (rawCli : raw.args) (env : Env) :
  acl_ok rawCli = true ->
  on_fail_ok rawCli = true ->
  rate_ok Nd rawCli = false ->
  GetCliArgs Nd rawCli env = (Fail msg_bandwidth, env).
Proof.
  intros Ha Ho Hr. rewrite run_decisions. unfold decisions.
  rewrite Ha, Ho, Hr. reflexivity.
Qed.

(** X9. An endpoint that does not parse ends the run by returning the
    error of [url.Parse], not by [p.Fail]; the source is resolved before
    the target, so of two bad endpoints the source's error is returned.
    Nothing after the endpoints (terminal, permissions, environment) is
    reached. *)
Theorem endpoint_error_returned (rawCli : raw.args) (env : Env) :
  acl_ok rawCli = true ->
  on_fail_ok rawCli = true ->
  rate_ok Nd rawCli = true ->
  (forall err, parseConn (raw.Source rawCli) = inl err ->
               GetCliArgs Nd rawCli env = (Err err, env))
  /\ (forall conn err,
        parseConn (raw.Source rawCli) = inr conn ->
        parseConn (raw.Target rawCli) = inl err ->
        GetCliArgs Nd rawCli env = (Err err, env)).
Proof.
  intros Ha Ho Hr. rewrite run_decisions. unfold decisions.
  rewrite Ha, Ho, Hr. cbn [negb]. split.
  - intros err ->. reflexivity.
  - intros conn err -> ->. reflexivity.
Qed.

(** X10. With [--sync-progress] and a standard output that is no terminal
    no configuration is produced; once the options before it and both
    endpoints are valid the run ends with the terminal message, even if
    the permissions are malformed or the xattr filter conflicts, and the
    environment is untouched. *)
Theorem progress_requires_tty (rawCli : raw.args) (env : Env) :
  raw.ShowProgress rawCli = true ->
  stdoutIsTerminal env = false ->
  (forall cli env', GetCliArgs Nd rawCli env <> (Ok cli, env'))
  /\ (acl_ok rawCli = true ->
      on_fail_ok rawCli = true ->
      rate_ok Nd rawCli = true ->
      (exists conn, parseConn (raw.Source rawCli) = inr conn) ->
      (exists conn, parseConn (raw.Target rawCli) = inr conn) ->
      GetCliArgs Nd rawCli env = (Fail msg_tty, env)).
Proof.
  intros Hp Ht. rewrite run_decisions. unfold decisions.
  rewrite Hp, Ht. cbn [negb andb]. split.
  - intros cli env'.
    repeat match goal with
           | |- context [if ?b then _ else _] => destruct b
           | |- context [match ?x with inl _ => _ | inr _ => _ end] =>
               destruct x
           end; discriminate.
  - intros -> -> -> [c1 ->] [c2 ->]. reflexivity.
Qed.

(** X11. The permissions are read as octal numbers of at most 32 bits. A
    file permission that is empty, holds a byte other than [0-7] or
    denotes 2^32 or more ends the run with the file-permission message;
    with a valid file permission, such a directory permission ends it
    with the directory-permission message. *)
Theorem invalid_permission_fails (rawCli : raw.args) (env : Env) :
  acl_ok rawCli = true ->
  on_fail_ok rawCli = true ->
  rate_ok Nd rawCli = true ->
  (exists conn, parseConn (raw.Source rawCli) = inr conn) ->
  (exists conn, parseConn (raw.Target rawCli) = inr conn) ->
  raw.ShowProgress rawCli && negb (stdoutIsTerminal env) = false ->
  (perm_ok (raw.FSFilePerm rawCli) = false ->
   GetCliArgs Nd rawCli env = (Fail msg_file_perm, env))
  /\ (perm_ok (raw.FSFilePerm rawCli) = true ->
      perm_ok (raw.FSDirPerm rawCli) = false ->
      GetCliArgs Nd rawCli env = (Fail msg_dir_perm, env)).
Proof.
  intros Ha Ho Hr [c1 E1] [c2 E2] Hp. rewrite run_decisions.
  unfold decisions. rewrite Ha, Ho, Hr, E1, E2, Hp. cbn [negb]. split.
  - intros ->. reflexivity.
  - intros -> ->. reflexivity.
Qed.

(** X12. Resolution succeeds exactly when every check passes, and the
    configuration is then fixed field by field: the raw options as they
    were, the two descriptors of [parseConn], the retry interval in
    nanoseconds, the on-failure action, the two permissions as octal
    numbers and the rate of [parseBandwith]. *)
Theorem resolution_succeeds_iff (rawCli : raw.args) (env env' : Env)
    (cli : argsParsed) :
  GetCliArgs Nd rawCli env = (Ok cli, env')
  <-> acl_ok rawCli = true
      /\ on_fail_ok rawCli = true
      /\ rate_ok Nd rawCli = true
      /\ raw.ShowProgress rawCli && negb (stdoutIsTerminal env) = false
      /\ perm_ok (raw.FSFilePerm rawCli) = true
      /\ perm_ok (raw.FSDirPerm rawCli) = true
      /\ raw.FilterModified rawCli && raw.FSDisableXattr rawCli = false
      /\ (exists source target,
            parseConn (raw.Source rawCli) = inr source
            /\ parseConn (raw.Target rawCli) = inr target
            /\ cli = mkArgsParsed rawCli source target
                       (wrap_int (wrap_int (raw.S3RetryInterval rawCli)
                                  * time_Second))
                       (on_fail_action (raw.OnFail rawCli))
                       (octal (raw.FSFilePerm rawCli))
                       (octal (raw.FSDirPerm rawCli))
                       (fst (parseBandwith Nd
                               (raw.RateLimitBandwidth rawCli))))
      /\ env' = (if raw.DisableHTTP2 rawCli then http2_disabled env
                 else env).
Proof.
  rewrite run_decisions. unfold decisions. split.
  - destruct (acl_ok rawCli); [|discriminate].
    destruct (on_fail_ok rawCli); [|discriminate].
    destruct (rate_ok Nd rawCli); [|discriminate]. cbn [negb].
    destruct (parseConn (raw.Source rawCli)) as [?|source]; [discriminate|].
    destruct (parseConn (raw.Target rawCli)) as [?|target]; [discriminate|].
    destruct (raw.ShowProgress rawCli && negb (stdoutIsTerminal env));
      [discriminate|].
    destruct (perm_ok (raw.FSFilePerm rawCli)); [|discriminate].
    destruct (perm_ok (raw.FSDirPerm rawCli)); [|discriminate].
    cbn [negb].
    destruct (raw.FilterModified rawCli && raw.FSDisableXattr rawCli);
      [discriminate|].
    intros H. inversion H. repeat split; eauto.
  - intros (-> & -> & -> & -> & -> & -> & -> &
            (source & target & -> & -> & ->) & ->).
    reflexivity.
Qed.

(** X13. The one effect of a run on the environment is the write to
    [GODEBUG]: without [--disable-http2] the environment is left as it
    was; in every case the terminal is not touched and [GODEBUG] is either
    unchanged or extended, with no separator, by [http2client=0]; a run
    that resolves with the flag set has extended it. *)
Theorem environment_effect (rawCli : raw.args) (env : Env) :
  (raw.DisableHTTP2 rawCli = false ->
   snd (GetCliArgs Nd rawCli env) = env)
  /\ stdoutIsTerminal (snd (GetCliArgs Nd rawCli env)) = stdoutIsTerminal env
  /\ (GODEBUG (snd (GetCliArgs Nd rawCli env)) = GODEBUG env
      \/ GODEBUG (snd (GetCliArgs Nd rawCli env))
         = GODEBUG env ++ "http2client=0")
  /\ (forall cli env',
        GetCliArgs Nd rawCli env = (Ok cli, env') ->
        raw.DisableHTTP2 rawCli = true ->
        GODEBUG env' = GODEBUG env ++ "http2client=0").
Proof.
  rewrite run_decisions. unfold decisions, http2_disabled.
  repeat match goal with
         | |- context [if ?b then _ else _] =>
             lazymatch b with
             | context [if _ then _ else _] => fail
             | _ => destruct b eqn:?
             end
         | |- context [match ?x with inl _ => _ | inr _ => _ end] =>
             destruct x
         end;
    cbn [fst snd stdoutIsTerminal GODEBUG];
    repeat split; auto; try discriminate;
    intros cli env' H; inversion H; reflexivity.
Qed.

(** X14. The retry interval of a resolved configuration is the number of
    seconds times 10^9, computed in 64 bits: exact up to 9223372036
    seconds, the last value whose nanoseconds fit an [int64]. *)
Theorem retry_interval_nanoseconds (rawCli : raw.args) (env env' : Env)
    (cli : argsParsed) :
  GetCliArgs Nd rawCli env = (Ok cli, env') ->
  S3RetryInterval cli
  = wrap_int (wrap_int (raw.S3RetryInterval rawCli) * 1000000000)
  /\ ((0 <= raw.S3RetryInterval rawCli <= 9223372036)%Z ->
      S3RetryInterval cli = (raw.S3RetryInterval rawCli * 1000000000)%Z).
Proof.
  intros H. apply bind_Ok in H as (_ & ? & _ & H).
  apply bind_Ok in H as (onFail & ? & _ & H).
  apply bind_Ok in H as (rate & ? & _ & H).
  do 8 (apply bind_Ok in H as (? & ? & _ & H)).
  unfold ret in H. inversion H; subst. cbn [S3RetryInterval].
  split; [reflexivity|]. intros Hr. unfold wrap_int, time_Second.
  rewrite (Z.mod_small (raw.S3RetryInterval rawCli + 2 ^ 63)) by lia.
  replace (raw.S3RetryInterval rawCli + 2 ^ 63 - 2 ^ 63)%Z
    with (raw.S3RetryInterval rawCli) by lia.
  rewrite Z.mod_small by lia. lia.
Qed.

(** X15. The defaults pass every check: with two endpoints that parse,
    the default options resolve, to the action fatal, the permissions
    0644 and 0755 (420 and 493), no rate limit and no retry interval, and
    the environment is left as it was. *)
Theorem defaults_resolve (source target : string) (c1 c2 : connect)
    (env : Env) :
  parseConn source = inr c1 ->
  parseConn target = inr c2 ->
  GetCliArgs Nd (default_args source target) env
  = (Ok (mkArgsParsed (default_args source target) c1 c2
                      0 onFailFatal 420 493 0), env).
Proof.
  intros E1 E2. rewrite run_decisions. unfold decisions.
  cbn [default_args raw.Source raw.Target]. rewrite E1, E2. reflexivity.
Qed.

End Checks.

(** ** Endpoints: escapes, queries and fragments *)

Lemma key_byte_facts (c : ascii) :
  key_byte c = true ->
  url.isCTL c = false
  /\ Ascii.eqb c "#" = false /\ Ascii.eqb c "?" = false.
Proof.
  unfold key_byte, url.byte_among. simpl existsb.
  intros H. apply andb_true_iff in H as [H1 H2].
  apply negb_true_iff in H1, H2.
  repeat (apply orb_false_iff in H2 as [? H2]).
  repeat split; assumption.
Qed.

Lemma length_app (a b : string) :
  String.length (a ++ b) = String.length a + String.length b.
Proof.
  induction a as [|c t IH]; [reflexivity|]. cbn. rewrite IH. reflexivity.
Qed.

Lemma CountByte_app (a b : string) (c : ascii) :
  strings.CountByte (a ++ b) c
  = strings.CountByte a c + strings.CountByte b c.
Proof.
  induction a as [|d t IH]; [reflexivity|].
  cbn [String.append strings.CountByte]. rewrite IH. lia.
Qed.

Lemma snoc_cases (s : string) :
  s = "" \/ exists t c, s = t ++ String c "".
Proof.
  induction s as [|d s IH]; [left; reflexivity|]. right.
  destruct IH as [->|(t & c & ->)].
  - exists "", d. reflexivity.
  - exists (String d t), c. reflexivity.
Qed.

Lemma HasSuffix_snoc (x : string) (c d : ascii) :
  strings.HasSuffix (x ++ String c "") (String d "") = Ascii.eqb c d.
Proof.
  unfold strings.HasSuffix. rewrite length_app. cbn [String.length].
  replace (String.length x + 1 - 1) with (String.length x) by lia.
  rewrite drop_app.
  destruct (Nat.leb_spec 1 (String.length x + 1)); [|lia].
  cbn. destruct (Ascii.eqb c d); reflexivity.
Qed.

(** The split of [rest] at its query, in [parse]: what remains, the flag
    [ForceQuery] and [RawQuery]. *)
Lemma query_split (a q : string) :
  no_byte "?" a = true ->
  (if strings.HasSuffix (a ++ String "?" q) "?"
      && (strings.CountByte (a ++ String "?" q) "?" =? 1)%nat
   then (strings.take (String.length (a ++ String "?" q) - 1)
           (a ++ String "?" q), true, EmptyString)
   else let '(before, after, _) := strings.Cut (a ++ String "?" q) "?" in
        (before, false, after))
  = (a, String.eqb q "", q).
Proof.
  intros Ha.
  assert (Hcount : strings.CountByte (a ++ String "?" q) "?"
                   = S (strings.CountByte q "?")).
  { rewrite CountByte_app, (CountByte_no_byte "?" a Ha). reflexivity. }
  assert (Hcut : strings.Cut (a ++ String "?" q) "?" = (a, q, true)).
  { unfold strings.Cut. rewrite (Index_app_byte "?" a q Ha).
    rewrite take_app. cbn [String.length].
    replace (String.length a + 1) with (String.length (a ++ "?"))
      by (rewrite length_app; reflexivity).
    change (a ++ String "?" q) with (a ++ (String "?" "" ++ q)).
    rewrite <- append_assoc, drop_app. reflexivity. }
  destruct (snoc_cases q) as [->|(t & c & ->)].
  - change (a ++ "?") with (a ++ String "?" "").
    rewrite HasSuffix_snoc, Hcount. cbn [strings.CountByte Nat.eqb andb
                                          Ascii.eqb Bool.eqb String.eqb].
    rewrite length_app. cbn [String.length].
    replace (String.length a + 1 - 1) with (String.length a) by lia.
    rewrite take_app. reflexivity.
  - change (a ++ String "?" (t ++ String c ""))
      with (a ++ (String "?" t ++ String c "")) in *.
    rewrite <- append_assoc in *. rewrite HasSuffix_snoc, Hcount.
    assert (Hq : String.eqb (t ++ String c "") "" = false)
      by (destruct t; reflexivity).
    rewrite Hq.
    destruct (Ascii.eqb_spec c "?") as [->|Hc]; cbn [andb].
    + rewrite CountByte_app. cbn [strings.CountByte Ascii.eqb Bool.eqb].
      destruct (Nat.eqb_spec
                  (S (strings.CountByte t "?" + (1 + 0))) 1); [lia|].
      rewrite Hcut. reflexivity.
    + rewrite Hcut. reflexivity.
Qed.

Ltac key_to_no_byte :=
  unfold no_byte;
  match goal with
  | H : str_forallb key_byte ?s = true |- str_forallb _ ?s = true =>
      revert H; apply str_forallb_impl;
      let c := fresh "c" in let Hc := fresh "Hc" in
      intros c Hc; apply key_byte_facts in Hc as (? & ? & ?);
      apply negb_true_iff; assumption
  end.

Lemma no_ctl (p : ascii -> bool) (s : string) :
  (forall c, p c = true -> url.isCTL c = false) ->
  str_forallb p s = true -> str_existsb url.isCTL s = false.
Proof.
  intros Hp H. apply str_existsb_forallb. revert H.
  apply str_forallb_impl. intros c Hc. rewrite (Hp c Hc). reflexivity.
Qed.

(** The authority and the path of [s3://bucket/p], after the scheme and
    the query are split off. *)
Lemma parse_s3_rest (bucket p : string) (fq : bool) (rq : string) :
  str_forallb bucket_byte bucket = true ->
  (let rest1 := "//" ++ bucket ++ String "/" p in
   if negb (strings.HasPrefix rest1 "/") && negb (String.eqb "s3" "")
   then inr (url.mkURL "s3" rest1 None "" "" false fq rq "")
   else if negb (strings.HasPrefix rest1 "/")
           && (let '(segment, _, _) := strings.Cut rest1 "/" in
               strings.Contains segment ":")
   then inl url.ErrFirstSegmentColon
   else if (negb (String.eqb "s3" "")
            || negb (strings.HasPrefix rest1 "///"))
           && strings.HasPrefix rest1 "//"
   then
     let authority0 := strings.drop 2 rest1 in
     let '(authority, rest2) :=
       match strings.Index authority0 "/" with
       | Some i => (strings.take i authority0, strings.drop i authority0)
       | None => (authority0, EmptyString)
       end in
     match url.parseAuthority authority with
     | inl e => inl e
     | inr (user, host) =>
         match url.unescape rest2 url.encodePath with
         | inl e => inl e
         | inr path => inr (url.mkURL "s3" "" user host path false fq rq "")
         end
     end
   else
     let omitHost :=
       negb (String.eqb "s3" "") && strings.HasPrefix rest1 "/" in
     match url.unescape rest1 url.encodePath with
     | inl e => inl e
     | inr path => inr (url.mkURL "s3" "" None "" path omitHost fq rq "")
     end)
  = match url.unescape (String "/" p) url.encodePath with
    | inl e => inl e
    | inr path => inr (url.mkURL "s3" "" None bucket path false fq rq "")
    end.
Proof.
  intros Hb. cbv zeta.
  cbn -[strings.Index url.parseAuthority url.unescape].
  rewrite (Index_app_byte "/" bucket p) by class_to_no_byte.
  rewrite take_app, drop_app, (parseAuthority_plain bucket Hb).
  reflexivity.
Qed.

Lemma parse_s3_path (bucket p : string) :
  str_forallb bucket_byte bucket = true ->
  str_forallb key_byte p = true ->
  url.parse ("s3://" ++ bucket ++ String "/" p)
  = match url.unescape (String "/" p) url.encodePath with
    | inl e => inl e
    | inr path => inr (url.mkURL "s3" "" None bucket path false false "" "")
    end.
Proof.
  intros Hb Hp.
  pose (r := bucket ++ String "/" p).
  assert (Hq : no_byte "?" r = true).
  { unfold r, no_byte. rewrite str_forallb_app. simpl.
    apply andb_true_iff. split; [class_to_no_byte | key_to_no_byte]. }
  assert (Hctl : str_existsb url.isCTL r = false).
  { unfold r. rewrite str_existsb_app. cbn [str_existsb].
    rewrite (no_ctl bucket_byte bucket), (no_ctl key_byte p); auto.
    - intros c Hc. apply key_byte_facts in Hc. tauto.
    - intros c Hc. apply bucket_byte_facts in Hc. tauto. }
  unfold url.parse. fold r.
  replace (url.stringContainsCTLByte ("s3://" ++ r)) with false
    by (symmetry; simpl; exact Hctl).
  replace (String.eqb ("s3://" ++ r) "*") with false by reflexivity.
  replace (url.getScheme ("s3://" ++ r)) with
    (inr ("s3", "//" ++ r) : url.Error + (string * string)) by reflexivity.
  replace (strings.ToLower "s3") with "s3" by reflexivity.
  rewrite (CountByte_no_byte "?" ("//" ++ r)) by (simpl; exact Hq).
  rewrite andb_false_r.
  rewrite (Cut_no_byte "?" ("//" ++ r)) by (simpl; exact Hq).
  apply (parse_s3_rest bucket p false "" Hb).
Qed.

Lemma parse_s3_query (bucket p q : string) :
  str_forallb bucket_byte bucket = true ->
  str_forallb key_byte p = true ->
  str_existsb url.isCTL q = false ->
  url.parse ("s3://" ++ bucket ++ String "/" p ++ String "?" q)
  = match url.unescape (String "/" p) url.encodePath with
    | inl e => inl e
    | inr path =>
        inr (url.mkURL "s3" "" None bucket path false (String.eqb q "") q "")
    end.
Proof.
  intros Hb Hp Hqc.
  pose (r := bucket ++ String "/" p).
  assert (Hq : no_byte "?" r = true).
  { unfold r, no_byte. rewrite str_forallb_app. simpl.
    apply andb_true_iff. split; [class_to_no_byte | key_to_no_byte]. }
  assert (Hctl : str_existsb url.isCTL r = false).
  { unfold r. rewrite str_existsb_app. cbn [str_existsb].
    rewrite (no_ctl bucket_byte bucket), (no_ctl key_byte p); auto.
    - intros c Hc. apply key_byte_facts in Hc. tauto.
    - intros c Hc. apply bucket_byte_facts in Hc. tauto. }
  assert (E : "s3://" ++ bucket ++ String "/" p ++ String "?" q
              = "s3://" ++ (r ++ String "?" q)).
  { unfold r. rewrite append_assoc. reflexivity. }
  rewrite E. unfold url.parse.
  replace (url.stringContainsCTLByte ("s3://" ++ r ++ String "?" q))
    with false
    by (symmetry; unfold url.stringContainsCTLByte; simpl;
        rewrite str_existsb_app, Hctl; simpl; exact Hqc).
  replace (String.eqb ("s3://" ++ r ++ String "?" q) "*") with false
    by reflexivity.
  replace (url.getScheme ("s3://" ++ r ++ String "?" q)) with
    (inr ("s3", "//" ++ r ++ String "?" q)
     : url.Error + (string * string)) by reflexivity.
  replace (strings.ToLower "s3") with "s3" by reflexivity.
  change ("//" ++ r ++ String "?" q) with (("//" ++ r) ++ String "?" q).
  rewrite (query_split ("//" ++ r) q) by (simpl; exact Hq).
  apply (parse_s3_rest bucket p (String.eqb q "") q Hb).
Qed.

Lemma unescape_slash (p : string) :
  url.unescape (String "/" p) url.encodePath
  = match url.unescape p url.encodePath with
    | inl e => inl e
    | inr d => inr (String "/" d)
    end.
Proof.
  unfold url.unescape. cbn [url.unescape_check url.unescape_decode].
  change (Ascii.eqb "/" "%") with false. change (Ascii.eqb "/" "+") with false.
  cbn [url.is_host_mode andb].
  destruct (url.unescape_check url.encodePath p); reflexivity.
Qed.

Lemma Parse_of_parse (s : string) :
  no_byte "#" s = true ->
  url.Parse s = url.parse s.
Proof.
  intros H. unfold url.Parse. rewrite (Cut_no_byte "#" s H).
  destruct (url.parse s); reflexivity.
Qed.

Lemma Parse_fragment (s f : string) :
  no_byte "#" s = true ->
  url.Parse (s ++ String "#" f)
  = match url.parse s with
    | inl e => inl e
    | inr u => if String.eqb f "" then inr u else url.setFragment u f
    end.
Proof.
  intros Hs. unfold url.Parse, strings.Cut.
  rewrite (Index_app_byte "#" s f Hs), take_app. cbn [String.length].
  replace (String.length s + 1) with (String.length (s ++ "#"))
    by (rewrite length_app; reflexivity).
  change (s ++ String "#" f) with (s ++ (String "#" "" ++ f)).
  rewrite <- append_assoc, drop_app. reflexivity.
Qed.

Lemma no_hash_s3 (bucket p : string) :
  str_forallb bucket_byte bucket = true ->
  str_forallb key_byte p = true ->
  no_byte "#" ("s3://" ++ bucket ++ String "/" p) = true.
Proof.
  intros Hb Hp. unfold no_byte. simpl. rewrite str_forallb_app. simpl.
  apply andb_true_iff. split; [class_to_no_byte | key_to_no_byte].
Qed.

Lemma path_byte_key_byte (s : string) :
  str_forallb path_byte s = true -> str_forallb key_byte s = true.
Proof.
  apply str_forallb_impl. intros c Hc.
  apply path_byte_facts in Hc as (H1 & H2 & H3 & _).
  unfold key_byte, url.byte_among. simpl existsb.
  rewrite H1, H2, H3. reflexivity.
Qed.

(** X16. The path of an [s3] endpoint is taken from the parsed URI, so its
    percent escapes are decoded (unlike the path of an [fs] endpoint,
    which is kept byte for byte); an ill-formed escape makes the endpoint
    invalid. *)
Theorem s3_path_unescaped (bucket p : string) :
  str_forallb bucket_byte bucket = true ->
  str_forallb key_byte p = true ->
  parseConn ("s3://" ++ bucket ++ "/" ++ p)
  = match url.unescape p url.encodePath with
    | inl err => inl err
    | inr key => inr (mkConnect storage.TypeS3 bucket key)
    end.
Proof.
  intros Hb Hp. unfold parseConn.
  change ("s3://" ++ bucket ++ "/" ++ p)
    with ("s3://" ++ bucket ++ String "/" p).
  rewrite (Parse_of_parse _ (no_hash_s3 bucket p Hb Hp)).
  rewrite (parse_s3_path bucket p Hb Hp), unescape_slash.
  destruct (url.unescape p url.encodePath); reflexivity.
Qed.

(** X17. What follows a [?] or a [#] in an [s3] endpoint is no part of the
    path.  With a bucket and a path that need no escaping, a query without
    [#] is dropped, unless it holds a control byte, which makes the
    endpoint invalid; a fragment is dropped, unless it holds an ill-formed
    escape, which makes the endpoint invalid.  What resolves is the
    descriptor of the endpoint without them. *)
Theorem s3_query_fragment_dropped (bucket path q f : string) :
  str_forallb bucket_byte bucket = true ->
  str_forallb path_byte path = true ->
  (no_byte "#" q = true ->
   parseConn ("s3://" ++ bucket ++ "/" ++ path ++ "?" ++ q)
   = if str_existsb url.isCTL q then inl url.ErrControlCharacter
     else inr (mkConnect storage.TypeS3 bucket path))
  /\ parseConn ("s3://" ++ bucket ++ "/" ++ path ++ "#" ++ f)
     = match url.unescape f url.encodeFragment with
       | inl err => inl err
       | inr _ => inr (mkConnect storage.TypeS3 bucket path)
       end.
Proof.
  intros Hb Hp.
  pose proof (path_byte_key_byte path Hp) as Hk.
  assert (Hun : url.unescape (String "/" path) url.encodePath
                = inr (String "/" path)).
  { apply unescape_no_percent; [reflexivity | discriminate |].
    unfold no_byte. simpl. class_to_no_byte. }
  split.
  - intros Hqh. unfold parseConn.
    change ("s3://" ++ bucket ++ "/" ++ path ++ "?" ++ q)
      with ("s3://" ++ bucket ++ String "/" path ++ String "?" q).
    rewrite Parse_of_parse.
    2:{ unfold no_byte. simpl. rewrite !str_forallb_app. simpl.
        rewrite str_forallb_app. simpl.
        repeat (apply andb_true_iff; split);
          [class_to_no_byte | class_to_no_byte | exact Hqh]. }
    destruct (str_existsb url.isCTL q) eqn:Hqc.
    + unfold url.parse.
      replace (url.stringContainsCTLByte
                 ("s3://" ++ bucket ++ String "/" path ++ String "?" q))
        with true; [reflexivity|].
      symmetry. unfold url.stringContainsCTLByte. simpl.
      rewrite str_existsb_app. simpl. rewrite str_existsb_app. simpl.
      rewrite Hqc, !orb_true_r. reflexivity.
    + rewrite (parse_s3_query bucket path q Hb Hk Hqc), Hun. reflexivity.
  - unfold parseConn.
    change ("s3://" ++ bucket ++ "/" ++ path ++ "#" ++ f)
      with ("s3://" ++ (bucket ++ String "/" path ++ String "#" f)).
    replace ("s3://" ++ bucket ++ String "/" path ++ String "#" f)
      with (("s3://" ++ bucket ++ String "/" path) ++ String "#" f)
      by (simpl; rewrite !append_assoc; reflexivity).
    rewrite (Parse_fragment _ f (no_hash_s3 bucket path Hb Hk)).
    rewrite (parse_s3_path bucket path Hb Hk), Hun.
    destruct (String.eqb_spec f "") as [->|_]; [reflexivity|].
    unfold url.setFragment.
    destruct (url.unescape f url.encodeFragment); reflexivity.
Qed.

(** X18. An [s3] endpoint written without the two slashes, as in
    [s3:bucket/path], is read as an opaque URI: when what follows [s3:]
    does not start with [/] and holds no control byte and none of [#],
    [?] and [%], it resolves, to the kind S3 with an empty bucket and an
    empty path. *)
Theorem s3_without_slashes (X : string) :
  str_forallb path_byte X = true ->
  strings.HasPrefix X "/" = false ->
  parseConn ("s3:" ++ X) = inr (mkConnect storage.TypeS3 "" "").
Proof.
  intros Hp Hs.
  assert (Hhash : no_byte "#" X = true) by class_to_no_byte.
  assert (Hq : no_byte "?" X = true) by class_to_no_byte.
  assert (Hctl : str_existsb url.isCTL X = false).
  { apply (no_ctl path_byte); [|exact Hp].
    intros c Hc. apply path_byte_facts in Hc. tauto. }
  unfold parseConn.
  rewrite (Parse_of_parse ("s3:" ++ X))
    by (unfold no_byte; simpl; exact Hhash).
  unfold url.parse.
  replace (url.stringContainsCTLByte ("s3:" ++ X)) with false
    by (symmetry; simpl; exact Hctl).
  replace (String.eqb ("s3:" ++ X) "*") with false by reflexivity.
  replace (url.getScheme ("s3:" ++ X)) with
    (inr ("s3", X) : url.Error + (string * string)) by reflexivity.
  replace (strings.ToLower "s3") with "s3" by reflexivity.
  rewrite (CountByte_no_byte "?" X Hq), andb_false_r.
  rewrite (Cut_no_byte "?" X Hq), Hs. reflexivity.
Qed.

Ltac parse_spelled sch low r Hq Hctl :=
  unfold url.parse;
  replace (url.stringContainsCTLByte (sch ++ "://" ++ r)) with false
    by (symmetry; simpl; exact Hctl);
  replace (String.eqb (sch ++ "://" ++ r) "*") with false by reflexivity;
  replace (url.getScheme (sch ++ "://" ++ r)) with
    (inr (sch, "//" ++ r) : url.Error + (string * string)) by reflexivity;
  replace (strings.ToLower sch) with low by reflexivity;
  rewrite (CountByte_no_byte "?" ("//" ++ r)) by (simpl; exact Hq);
  rewrite andb_false_r;
  rewrite (Cut_no_byte "?" ("//" ++ r)) by (simpl; exact Hq).

Lemma Parse_S3_upper (bucket path : string) :
  str_forallb bucket_byte bucket = true ->
  str_forallb path_byte path = true ->
  url.Parse ("S3://" ++ bucket ++ String "/" path)
  = inr (url.mkURL "s3" "" None bucket (String "/" path)
                   false false "" "").
Proof.
  intros Hb Hp.
  pose proof (path_byte_key_byte path Hp) as Hk.
  pose (r := bucket ++ String "/" path).
  assert (Hq : no_byte "?" r = true).
  { unfold r, no_byte. rewrite str_forallb_app. simpl.
    apply andb_true_iff. split; class_to_no_byte. }
  assert (Hh : no_byte "#" r = true).
  { unfold r, no_byte. rewrite str_forallb_app. simpl.
    apply andb_true_iff. split; class_to_no_byte. }
  assert (Hctl : str_existsb url.isCTL r = false).
  { unfold r. rewrite str_existsb_app. cbn [str_existsb].
    rewrite (no_ctl bucket_byte bucket), (no_ctl key_byte path); auto.
    - intros c Hc. apply key_byte_facts in Hc. tauto.
    - intros c Hc. apply bucket_byte_facts in Hc. tauto. }
  change (url.Parse ("S3" ++ "://" ++ r)
          = inr (url.mkURL "s3" "" None bucket (String "/" path)
                           false false "" "")).
  rewrite Parse_of_parse by (unfold no_byte; simpl; exact Hh).
  parse_spelled "S3" "s3" r Hq Hctl.
  unfold r. etransitivity; [apply (parse_s3_rest bucket path false "" Hb)|].
  rewrite (unescape_no_percent url.encodePath (String "/" path));
    [reflexivity | reflexivity | discriminate |].
  unfold no_byte. simpl. class_to_no_byte.
Qed.

Lemma Parse_fs_spelled (sch X : string) :
  In sch ["fS"; "Fs"; "FS"] ->
  strings.HasPrefix X "/" = true ->
  str_forallb path_byte X = true ->
  url.Parse (sch ++ "://" ++ X)
  = inr (url.mkURL "fs" "" None "" X false false "" "").
Proof.
  intros Hsch Hs Hp.
  destruct X as [|c t]; [discriminate|].
  simpl in Hs. apply andb_true_iff in Hs as [Hc _].
  apply Ascii.eqb_eq in Hc. subst c.
  set (X := String "/" t) in *.
  assert (Hhash : no_byte "#" X = true) by class_to_no_byte.
  assert (Hq : no_byte "?" X = true) by class_to_no_byte.
  assert (Hpc : no_byte "%" X = true) by class_to_no_byte.
  assert (Hctl : str_existsb url.isCTL X = false).
  { apply (no_ctl path_byte); [|exact Hp].
    intros c Hc. apply path_byte_facts in Hc. tauto. }
  destruct Hsch as [<-|[<-|[<-|[]]]];
    (rewrite Parse_of_parse by (unfold no_byte; simpl; exact Hhash));
    [ parse_spelled "fS" "fs" X Hq Hctl
    | parse_spelled "Fs" "fs" X Hq Hctl
    | parse_spelled "FS" "fs" X Hq Hctl ];
    cbn -[url.unescape]; fold X;
    rewrite (unescape_no_percent url.encodePath X);
      try reflexivity; try discriminate; exact Hpc.
Qed.

(** X19. The scheme is compared without regard to case, the prefix
    [fs://] is not.  With a bucket and a path that need no escaping,
    [S3://bucket/path] resolves like [s3://bucket/path]; an [fs] endpoint
    whose scheme is not in lower case, followed by an absolute path that
    holds no control byte and none of [#], [?] and [%], keeps the whole
    string, scheme included, as its path. *)
Theorem scheme_case :
  (forall bucket path,
      str_forallb bucket_byte bucket = true ->
      str_forallb path_byte path = true ->
      parseConn ("S3://" ++ bucket ++ "/" ++ path)
      = inr (mkConnect storage.TypeS3 bucket path))
  /\ (forall sch X,
        In sch ["fS"; "Fs"; "FS"] ->
        strings.HasPrefix X "/" = true ->
        str_forallb path_byte X = true ->
        parseConn (sch ++ "://" ++ X)
        = inr (mkConnect storage.TypeFS "" (sch ++ "://" ++ X))).
Proof.
  split.
  - intros bucket path Hb Hp. unfold parseConn.
    change ("S3://" ++ bucket ++ "/" ++ path)
      with ("S3://" ++ bucket ++ String "/" path).
    rewrite (Parse_S3_upper bucket path Hb Hp). reflexivity.
  - intros sch X Hsch Hs Hp. unfold parseConn.
    rewrite (Parse_fs_spelled sch X Hsch Hs Hp).
    cbn [url.Scheme String.eqb Ascii.eqb Bool.eqb].
    destruct Hsch as [<-|[<-|[<-|[]]]]; reflexivity.
Qed.

(** ** Instances *)

Lemma Nd_excerpt_not_space (r : utf8.rune) :
  Nd_excerpt r = true -> unicode.IsSpace r = false.
Proof.
  unfold Nd_excerpt. intros H.
  assert (Hr : (1632 <= r <= 1641 \/ 2406 <= r <= 2415
                \/ 65296 <= r <= 65305)%Z).
  { repeat match type of H with
           | context [(?a <=? ?b)%Z] => destruct (Z.leb_spec a b)
           end; try discriminate H; lia. }
  clear H. unfold unicode.IsSpace, unicode.MaxLatin1.
  repeat match goal with
         | |- context [(?a <=? ?b)%Z] =>
             destruct (Z.leb_spec a b); try lia
         | |- context [(?a =? ?b)%Z] =>
             destruct (Z.eqb_spec a b); try lia
         end;
    reflexivity.
Qed.

Lemma parseBandwith_numeric_witness :
  parseBandwith Nd_excerpt "1500" = (1500%Z, true)
  /\ parseBandwith Nd_excerpt "9223372036854775808" = (0%Z, false).
Proof.
  split.
  - exact (parseBandwith_numeric Nd_excerpt "1500"
             ltac:(discriminate) eq_refl).
  - exact (parseBandwith_numeric Nd_excerpt "9223372036854775808"
             ltac:(discriminate) eq_refl).
Defined.

Lemma parseBandwith_refused_witness :
  parseBandwith Nd_excerpt "1.5M" = (0%Z, false).
Proof.
  exact (parseBandwith_refused Nd_excerpt "1.5M" eq_refl).
Defined.

Lemma parseBandwith_no_digit_witness :
  parseBandwith Nd_excerpt "K" = (0%Z, false).
Proof.
  exact (parseBandwith_no_digit Nd_excerpt "K" ltac:(discriminate) eq_refl).
Defined.

Lemma parseBandwith_unit_position_witness :
  parseBandwith Nd_excerpt "1K0" = (10240%Z, true)
  /\ parseBandwith Nd_excerpt "1K0M" = (10485760%Z, true).
Proof.
  exact (parseBandwith_unit_position Nd_excerpt "1" "0" "K" "M"
           1024 (1024 * 1024) eq_refl eq_refl eq_refl eq_refl).
Defined.

Lemma parseBandwith_white_space_witness :
  parseBandwith Nd_excerpt " 1 0 K " = parseBandwith Nd_excerpt "10K".
Proof.
  apply (parseBandwith_white_space Nd_excerpt " 1 0 K " "10K"
           Nd_excerpt_not_space).
  - discriminate.
  - discriminate.
  - reflexivity.
Defined.

Lemma parseBandwith_digit_above_Latin1_witness :
  parseBandwith Nd_excerpt
    (String "217" (String "161" (String "217" (String "162" "K"))))
  = (0%Z, false).
Proof.
  apply (parseBandwith_digit_above_Latin1 Nd_excerpt _ 1633%Z).
  - left. reflexivity.
  - lia.
  - reflexivity.
  - reflexivity.
Defined.

Lemma enumerated_options_first_witness :
  GetCliArgs Nd_excerpt
    (sample_options "s3://bucket/path" "/data/dir" "public" "never" "10X"
                    "abc" "0755" 0 false) (mkEnv true "")
  = (Fail msg_acl, mkEnv true "")
  /\ GetCliArgs Nd_excerpt
       (sample_options "s3://bucket/path" "/data/dir" "private" "never" "10X"
                       "abc" "0755" 0 false) (mkEnv true "")
     = (Fail msg_on_fail, mkEnv true "").
Proof.
  split.
  - apply (proj1 (enumerated_options_first Nd_excerpt _ _)). reflexivity.
  - apply (proj2 (enumerated_options_first Nd_excerpt _ _)); reflexivity.
Defined.

Lemma invalid_bandwidth_fails_witness :
  GetCliArgs Nd_excerpt
    (sample_options "/data/100%" "/data/dir" "private" "skip" "10X"
                    "0644" "0755" 0 false) (mkEnv true "")
  = (Fail msg_bandwidth, mkEnv true "").
Proof.
  apply (invalid_bandwidth_fails Nd_excerpt); reflexivity.
Defined.

Lemma endpoint_error_returned_witness :
  GetCliArgs Nd_excerpt
    (sample_options "/data/100%" "backup 1:2/x" "private" "skip" "10M"
                    "0644" "0755" 0 false) (mkEnv true "")
  = (Err (url.EscapeError "%"), mkEnv true "")
  /\ GetCliArgs Nd_excerpt
       (sample_options "/data/dir" "backup 1:2/x" "private" "skip" "10M"
                       "0644" "0755" 0 false) (mkEnv true "")
     = (Err url.ErrFirstSegmentColon, mkEnv true "").
Proof.
  split.
  - apply (fun a o r =>
             proj1 (endpoint_error_returned Nd_excerpt _ _ a o r));
      reflexivity.
  - apply (fun a o r =>
             proj2 (endpoint_error_returned Nd_excerpt _ _ a o r))
      with (conn := mkConnect storage.TypeFS "" "/data/dir");
      reflexivity.
Defined.

Lemma progress_requires_tty_witness :
  GetCliArgs Nd_excerpt
    (sample_options "s3://bucket/path" "/data/dir" "private" "skip" ""
                    "abc" "0755" 0 true) (mkEnv false "")
  = (Fail msg_tty, mkEnv false "").
Proof.
  apply (fun p t => proj2 (progress_requires_tty Nd_excerpt _ _ p t));
    try reflexivity; eexists; reflexivity.
Defined.

Lemma invalid_permission_fails_witness :
  GetCliArgs Nd_excerpt
    (sample_options "s3://bucket/path" "/data/dir" "private" "skip" ""
                    "0888" "0755" 0 false) (mkEnv true "")
  = (Fail msg_file_perm, mkEnv true "")
  /\ GetCliArgs Nd_excerpt
       (sample_options "s3://bucket/path" "/data/dir" "private" "skip" ""
                       "0644" "40000000000" 0 false) (mkEnv true "")
     = (Fail msg_dir_perm, mkEnv true "").
Proof.
  split.
  - apply (fun a o r s t p =>
             proj1 (invalid_permission_fails Nd_excerpt _ _ a o r s t p));
      try reflexivity; eexists; reflexivity.
  - apply (fun a o r s t p =>
             proj2 (invalid_permission_fails Nd_excerpt _ _ a o r s t p));
      try reflexivity; eexists; reflexivity.
Defined.

Lemma resolution_succeeds_iff_witness :
  GetCliArgs Nd_excerpt
    (sample_options "s3://bucket/path" "/data/dir" "public-read"
                    "skipmissing" "10M" "0600" "0700" 5 false)
    (mkEnv true "")
  = (Ok (mkArgsParsed
           (sample_options "s3://bucket/path" "/data/dir" "public-read"
                           "skipmissing" "10M" "0600" "0700" 5 false)
           (mkConnect storage.TypeS3 "bucket" "path")
           (mkConnect storage.TypeFS "" "/data/dir")
           5000000000 onFailSkipMissing 384 448 10485760),
     mkEnv true "").
Proof.
  apply (proj2 (resolution_succeeds_iff Nd_excerpt _ _ _ _)).
  repeat split; try reflexivity.
  do 2 eexists. repeat split; reflexivity.
Defined.

Lemma environment_effect_witness :
  GODEBUG (snd (GetCliArgs Nd_excerpt (sample_args "fatal" false false true)
                           (mkEnv true "netdns=go")))
  = "netdns=gohttp2client=0".
Proof.
  exact (proj2 (proj2 (proj2 (environment_effect Nd_excerpt
                                (sample_args "fatal" false false true)
                                (mkEnv true "netdns=go"))))
               _ _ eq_refl eq_refl).
Defined.

Lemma retry_interval_nanoseconds_witness :
  exists cli env',
    GetCliArgs Nd_excerpt
      (sample_options "s3://bucket/path" "/data/dir" "private" "fatal" ""
                      "0644" "0755" 30 false) (mkEnv true "")
    = (Ok cli, env')
    /\ S3RetryInterval cli = 30000000000%Z.
Proof.
  do 2 eexists. split; [vm_compute; reflexivity|].
  refine (proj2 (retry_interval_nanoseconds Nd_excerpt
                   (sample_options "s3://bucket/path" "/data/dir" "private"
                                   "fatal" "" "0644" "0755" 30 false)
                   (mkEnv true "") _ _ eq_refl) _).
  cbn. lia.
Defined.

Lemma defaults_resolve_witness :
  GetCliArgs Nd_excerpt (default_args "s3://bucket/path" "/data/dir")
             (mkEnv false "")
  = (Ok (mkArgsParsed (default_args "s3://bucket/path" "/data/dir")
                      (mkConnect storage.TypeS3 "bucket" "path")
                      (mkConnect storage.TypeFS "" "/data/dir")
                      0 onFailFatal 420 493 0),
     mkEnv false "").
Proof.
  apply (defaults_resolve Nd_excerpt); reflexivity.
Defined.

Lemma s3_path_unescaped_witness :
  parseConn "s3://bucket/a%2Fb%20c"
  = inr (mkConnect storage.TypeS3 "bucket" "a/b c")
  /\ parseConn "s3://bucket/100%" = inl (url.EscapeError "%").
Proof.
  split.
  - exact (s3_path_unescaped "bucket" "a%2Fb%20c" eq_refl eq_refl).
  - exact (s3_path_unescaped "bucket" "100%" eq_refl eq_refl).
Defined.

Lemma s3_query_fragment_dropped_witness :
  parseConn "s3://bucket/dir/file?versionId=3"
  = inr (mkConnect storage.TypeS3 "bucket" "dir/file")
  /\ parseConn "s3://bucket/dir/file#part 2"
     = inr (mkConnect storage.TypeS3 "bucket" "dir/file")
  /\ parseConn "s3://bucket/dir/file#%zz" = inl (url.EscapeError "%zz").
Proof.
  split; [|split].
  - exact (proj1 (s3_query_fragment_dropped "bucket" "dir/file"
                    "versionId=3" "" eq_refl eq_refl) eq_refl).
  - exact (proj2 (s3_query_fragment_dropped "bucket" "dir/file"
                    "" "part 2" eq_refl eq_refl)).
  - exact (proj2 (s3_query_fragment_dropped "bucket" "dir/file"
                    "" "%zz" eq_refl eq_refl)).
Defined.

Lemma s3_without_slashes_witness :
  parseConn "s3:bucket/path" = inr (mkConnect storage.TypeS3 "" "").
Proof.
  exact (s3_without_slashes "bucket/path" eq_refl eq_refl).
Defined.

Lemma scheme_case_witness :
  parseConn "S3://Bucket/Path"
  = inr (mkConnect storage.TypeS3 "Bucket" "Path")
  /\ parseConn "FS:///tmp/x"
     = inr (mkConnect storage.TypeFS "" "FS:///tmp/x").
Proof.
  split.
  - exact (proj1 scheme_case "Bucket" "Path" eq_refl eq_refl).
  - exact (proj2 scheme_case "FS" "/tmp/x"
                 (or_intror (or_intror (or_introl eq_refl)))
                 eq_refl eq_refl).
Defined.
